(** * gdo-order-api: the draft-order relay of [server.js]

    [server.js] holds four successive revisions of one Express application.
    This development embeds the last revision (module [Final], the
    specification baseline) and the third one (module [Rev3], the only
    revision with [getProvidedKey] and [requireApiKey]).  The field mapping
    ([lineItems], [variables]) is the same text in every revision and is
    shared.  The first two revisions ([Rev1], [Rev2], with their common
    handler in [Early]) and the middleware and routes of each application
    ([app_rev1] to [app_final]) follow, for the properties of the second
    part.

    Conventions of the embedding:
    - a JavaScript value that came out of a JSON parser is a [JSValue];
      objects keep their properties as an association list in insertion
      order, and a property read returns the first binding of the key;
    - numbers are kept abstract ([JSNumber]): the code only tests them for
      truthiness and converts them to strings;
    - a string is a sequence of code units below 256 (Node decodes header
      bytes as latin1);
    - outbound [fetch] calls are answered by a [Host] oracle, and every
      call is recorded, in order, in the trace an effectful computation
      returns beside its result ([Eff]); a response comes with its body,
      so [resp.text()] does not fail and [resp.json()] is the host's JSON
      parser on that text;
    - the body of an inbound request is whatever [express.json()] left in
      [req.body]: a parsed object or array, or [undefined] when Express
      left it unset; in the applications the parser is the first stage
      ([BodyParser], [parsed_by]) and may answer the request itself;
    - [console.log] and [console.error] are not modelled. *)

From Stdlib Require Import Ascii String.
From stdpp Require Import base strings gmap list pretty.

Open Scope string_scope.
Set Warnings "-register-all".

(** ** JavaScript values *)

(** What the code needs of an IEEE double. No law is assumed. *)
Class JSNumber := {
  number : Type;
  (** a numeric literal of the source, such as the [1] of [it.quantity ?? 1] *)
  number_of_nat : nat -> number;
  (** ToBoolean on a number: false for +0, -0 and NaN only *)
  number_truthy : number -> bool;
  (** Number::toString in radix 10 *)
  number_to_string : number -> string
}.

(** An exception value: the [name] and [message] of an Error object. *)
Record Exn := mkExn { exn_name : string; exn_message : string }.

(** [new Error(msg)] *)
Definition Error (msg : string) : Exn := mkExn "Error" msg.

(** An engine-raised TypeError; the message texts are V8's. *)
Definition TypeError (msg : string) : Exn := mkExn "TypeError" msg.

(** [String(e)] on an Error object (Error.prototype.toString). *)
Definition String_of_error (e : Exn) : string :=
  if bool_decide (exn_name e = "") then exn_message e
  else if bool_decide (exn_message e = "") then exn_name e
  else exn_name e +:+ ": " +:+ exn_message e.

(** Computations that may throw. *)
Definition Throws (A : Type) : Type := Exn + A.

Definition tbind {A B} (m : Throws A) (f : A -> Throws B) : Throws B :=
  match m with
  | inl e => inl e
  | inr a => f a
  end.

Notation "'let!' x := m 'in' k" := (tbind m (fun x => k))
  (at level 10, x name, m at level 100, k at level 200).

Section Values.
Context {N : JSNumber}.

Inductive JSValue : Type :=
| JUndefined
| JNull
| JBool (b : bool)
| JNum (n : number)
| JStr (s : string)
| JArr (xs : list JSValue)
| JObj (props : list (string * JSValue)).

(** [v === undefined || v === null] *)
Definition nullish (v : JSValue) : bool :=
  match v with
  | JUndefined | JNull => true
  | _ => false
  end.

(** ToBoolean *)
Definition truthy (v : JSValue) : bool :=
  match v with
  | JUndefined | JNull => false
  | JBool b => b
  | JNum n => number_truthy n
  | JStr s => negb (bool_decide (s = ""))
  | JArr _ | JObj _ => true
  end.

(** [Array.isArray(v)] *)
Definition isArray (v : JSValue) : bool :=
  match v with
  | JArr _ => true
  | _ => false
  end.

(** First binding of [k] among own properties, [undefined] when there is none. *)
Fixpoint own (k : string) (props : list (string * JSValue)) : JSValue :=
  match props with
  | [] => JUndefined
  | (k', v) :: rest => if bool_decide (k' = k) then v else own k rest
  end.

Fixpoint has_own (k : string) (props : list (string * JSValue)) : bool :=
  match props with
  | [] => false
  | (k', _) :: rest => bool_decide (k' = k) || has_own k rest
  end.

Definition describe_nullish (v : JSValue) : string :=
  match v with
  | JNull => "null"
  | _ => "undefined"
  end.

(** [v.k] for the property names the relay reads. None of them is [length],
    an index, or a name found on a built-in prototype, so a primitive or an
    array answers [undefined]; reading from [undefined] or [null] throws. *)
Definition get (v : JSValue) (k : string) : Throws JSValue :=
  match v with
  | JUndefined | JNull =>
      inl (TypeError ("Cannot read properties of " +:+ describe_nullish v
                      +:+ " (reading '" +:+ k +:+ "')"))
  | JObj props => inr (own k props)
  | _ => inr JUndefined
  end.

(** [v?.k] *)
Definition get_opt (v : JSValue) (k : string) : JSValue :=
  match v with
  | JObj props => own k props
  | _ => JUndefined
  end.

(** [v ?? d] *)
Definition coalesce (v d : JSValue) : JSValue :=
  if nullish v then d else v.

(** A destructuring default, [{ k = d }]: used for [undefined] only. *)
Definition or_default (v d : JSValue) : JSValue :=
  match v with
  | JUndefined => d
  | _ => v
  end.

(** [String(v)] (ToString). A plain object prints as [[object Object]]
    unless it carries an own [toString] property: a JSON value is never
    callable, and Object.prototype.valueOf gives the object back, so
    OrdinaryToPrimitive throws. Array elements are joined with a comma,
    [undefined] and [null] elements as the empty string. *)
Fixpoint ToString (v : JSValue) : Throws string :=
  match v with
  | JUndefined => inr "undefined"
  | JNull => inr "null"
  | JBool true => inr "true"
  | JBool false => inr "false"
  | JNum n => inr (number_to_string n)
  | JStr s => inr s
  | JArr xs =>
      (fix join (l : list JSValue) : Throws string :=
         match l with
         | [] => inr ""
         | x :: rest =>
             let! s := match x with
                       | JUndefined | JNull => inr ""
                       | _ => ToString x
                       end in
             match rest with
             | [] => inr s
             | _ => let! r := join rest in inr (s +:+ "," +:+ r)
             end
         end) xs
  | JObj props =>
      if has_own "toString" props
      then inl (TypeError "Cannot convert object to primitive value")
      else inr "[object Object]"
  end.

End Values.

(** ** Strings *)

(** [s.slice(0, n)] *)
Fixpoint slice0 (n : nat) (s : string) : string :=
  match n, s with
  | S n', String c rest => String c (slice0 n' rest)
  | _, _ => ""
  end.

(** [s.includes(sub)] *)
Fixpoint includes (s sub : string) : bool :=
  String.prefix sub s ||
  match s with
  | "" => false
  | String _ rest => includes rest sub
  end.

(** WhiteSpace and LineTerminator code units below 256: what [\s] matches
    and what [trim] removes. *)
Definition is_white_space (c : ascii) : bool :=
  let n := nat_of_ascii c in
  (((9 <=? n) && (n <=? 13)) || (n =? 32) || (n =? 160))%nat.

(** Case folding of the [i] flag, on the letters A to Z. *)
Definition fold_case (c : ascii) : ascii :=
  let n := nat_of_ascii c in
  if ((65 <=? n) && (n <=? 90))%nat then ascii_of_nat (n + 32) else c.

Fixpoint drop_white_space (s : string) : string :=
  match s with
  | "" => ""
  | String c rest => if is_white_space c then drop_white_space rest else s
  end.

Fixpoint trimEnd (s : string) : string :=
  match s with
  | "" => ""
  | String c rest =>
      let rest' := trimEnd rest in
      if is_white_space c && bool_decide (rest' = "") then "" else String c rest'
  end.

(** [s.trim()] *)
Definition trim (s : string) : string := trimEnd (drop_white_space s).

(** Matches the literal [pat] at the start of [s], ignoring case, and
    returns what follows it. *)
Fixpoint match_ignoring_case (pat s : string) : option string :=
  match pat, s with
  | "", _ => Some s
  | String p pat', String c s' =>
      if bool_decide (fold_case p = fold_case c)
      then match_ignoring_case pat' s' else None
  | String _ _, "" => None
  end.

(** [s.replace(/^Bearer\s+/i, EMPTY)]: the scheme word and the whole run of
    white space after it are removed; without a match [s] is unchanged. *)
Definition strip_bearer (s : string) : string :=
  match match_ignoring_case "Bearer" s with
  | Some (String c rest) =>
      if is_white_space c then drop_white_space rest else s
  | _ => s
  end.

(** A template-literal hole or a form value filled from [process.env]:
    an unset variable prints as [undefined]. *)
Definition interpolate (v : option string) : string :=
  match v with
  | Some s => s
  | None => "undefined"
  end.

(** ToBoolean on a header or environment value ([string | undefined]). *)
Definition is_set (v : option string) : bool :=
  match v with
  | Some s => negb (bool_decide (s = ""))
  | None => false
  end.

(** ** The host: network and JSON parser *)

Section Host.
Context {N : JSNumber}.

(** The body handed to [fetch]. *)
Inductive FetchBody : Type :=
| FormBody (params : list (string * string))   (* a URLSearchParams *)
| JsonBody (payload : JSValue).                (* JSON.stringify(payload) *)

Record FetchRequest := mkFetchRequest {
  fr_url : string;
  fr_method : string;
  fr_headers : list (string * string);
  fr_body : FetchBody
}.

(** What the relay reads of a fetch Response. *)
Record FetchResponse := mkFetchResponse {
  resp_status : nat;
  resp_content_type : option string;   (* resp.headers.get("content-type") *)
  resp_text : string                   (* the body, decoded *)
}.

(** [resp.ok] *)
Definition resp_ok (r : FetchResponse) : bool :=
  ((200 <=? resp_status r) && (resp_status r <=? 299))%nat.

(** The host answers every outbound request (or rejects the promise) and
    parses JSON (or throws a SyntaxError). *)
Record Host := mkHost {
  fetch : FetchRequest -> Throws FetchResponse;
  JSON_parse : string -> Throws JSValue
}.

(** Effectful computations: a result or an exception, and the outbound
    requests made, oldest first. *)
Definition Eff (A : Type) : Type := Throws A * list FetchRequest.

Definition ret {A} (a : A) : Eff A := (inr a, []).

Definition lift {A} (m : Throws A) : Eff A := (m, []).

Definition bind {A B} (m : Eff A) (f : A -> Eff B) : Eff B :=
  match m with
  | (inl e, calls) => (inl e, calls)
  | (inr a, calls) => let '(r, calls') := f a in (r, (calls ++ calls')%list)
  end.

(** [await fetch(...)] *)
Definition await_fetch (W : Host) (rq : FetchRequest) : Eff FetchResponse :=
  (fetch W rq, [rq]).

(** [try { ... } catch (e) { ... }] around a whole handler body. *)
Definition try_catch {A} (m : Eff A) (handle : Exn -> A) : A * list FetchRequest :=
  match m with
  | (inl e, calls) => (handle e, calls)
  | (inr a, calls) => (a, calls)
  end.

End Host.

Notation "'do!' x := m 'in' k" := (bind m (fun x => k))
  (at level 10, x name, m at level 100, k at level 200).

(** ** Configuration, requests and replies *)

(** The module-level constants read from [process.env]. *)
Record Env := mkEnv {
  INBOUND_API_KEY : option string;
  SHOPIFY_SHOP_DOMAIN : option string;
  SHOPIFY_CLIENT_ID : option string;
  SHOPIFY_CLIENT_SECRET : option string;
  env_SHOPIFY_API_VERSION : option string
}.

(** [process.env.SHOPIFY_API_VERSION || "2025-10"] *)
Definition SHOPIFY_API_VERSION (E : Env) : string :=
  if is_set (env_SHOPIFY_API_VERSION E)
  then interpolate (env_SHOPIFY_API_VERSION E) else "2025-10".

Section Relay.
Context {N : JSNumber}.

(** An inbound request after [express.json()]: header names are lower
    case, as Node stores them. *)
Record Request := mkRequest {
  headers : gmap string string;
  body : JSValue
}.

(** [name.toLowerCase()] on the header names the relay asks for. *)
Fixpoint toLowerCase (s : string) : string :=
  match s with
  | "" => ""
  | String c rest => String (fold_case c) (toLowerCase rest)
  end.

(** [req.header(name)] *)
Definition header (req : Request) (name : string) : option string :=
  headers req !! toLowerCase name.

(** [res.status(code).json(payload)] *)
Record Reply := mkReply {
  status : nat;
  payload : JSValue
}.

(** A destructuring pattern [{ k } = v]: only [undefined] and [null]
    cannot be destructured. *)
Definition destructure (what : string) (v : JSValue) (k : string) : Throws JSValue :=
  match v with
  | JUndefined | JNull =>
      inl (TypeError ("Cannot destructure property '" +:+ k +:+ "' of '" +:+ what
                      +:+ "' as it is " +:+ describe_nullish v +:+ "."))
  | _ => get v k
  end.

(** The elements of an array (the relay reads them only after
    [Array.isArray] has answered true). *)
Definition elements (v : JSValue) : list JSValue :=
  match v with
  | JArr xs => xs
  | _ => []
  end.

(** [f] over a list, stopping at the first exception, as the callback of
    [Array.prototype.map] does. *)
Fixpoint map_throwing {A B} (f : A -> Throws B) (l : list A) : Throws (list B) :=
  match l with
  | [] => inr []
  | x :: rest =>
      let! y := f x in
      let! ys := map_throwing f rest in
      inr (y :: ys)
  end.

(** ** The field mapping (identical in every revision) *)

(** The GraphQL document, spelled as the template literal spells it. *)
Definition gql : string := "
      mutation draftOrderCreate($input: DraftOrderInput!) {
        draftOrderCreate(input: $input) {
          draftOrder { id invoiceUrl }
          userErrors { field message }
        }
      }
    ".

(** The callback of [items.map]. *)
Definition lineItem (it : JSValue) : Throws JSValue :=
  let! title := get it "title" in
  let! quantity := get it "quantity" in
  let! price := get it "price" in
  let! originalUnitPrice := ToString price in
  inr (JObj [("title", title);
             ("quantity", coalesce quantity (JNum (number_of_nat 1)));
             ("originalUnitPrice", JStr originalUnitPrice)]).

Definition lineItems (items : JSValue) : Throws JSValue :=
  let! mapped := map_throwing lineItem (elements items) in
  inr (JArr mapped).

(** [shipping_address.k ?? d] *)
Definition address_field (shipping_address : JSValue) (k : string) (d : string)
  : Throws JSValue :=
  let! v := get shipping_address k in
  inr (coalesce v (JStr d)).

Definition shippingAddress (shipping_address : JSValue) : Throws JSValue :=
  let! firstName := address_field shipping_address "firstName" "" in
  let! lastName := address_field shipping_address "lastName" "" in
  let! address1 := get shipping_address "address1" in
  let! address2 := address_field shipping_address "address2" "" in
  let! city := address_field shipping_address "city" "" in
  let! province := address_field shipping_address "province" "" in
  let! country := address_field shipping_address "country" "US" in
  let! zip := address_field shipping_address "zip" "" in
  let! phone := address_field shipping_address "phone" "" in
  inr (JObj [("firstName", firstName); ("lastName", lastName);
             ("address1", address1); ("address2", address2);
             ("city", city); ("province", province);
             ("country", country); ("zip", zip); ("phone", phone)]).

Definition variables (customer shipping_address note tags lineItems : JSValue)
  : Throws JSValue :=
  let! email := get customer "email" in
  let! address := shippingAddress shipping_address in
  inr (JObj [("input",
              JObj [("email", email);
                    ("shippingAddress", address);
                    ("note", note);
                    ("tags", tags);
                    ("lineItems", lineItems)])]).

(** ** Outbound requests *)

(** The credential-grant request of [getShopifyAccessToken]. *)
Definition tokenRequest (E : Env) : FetchRequest :=
  mkFetchRequest
    ("https://" +:+ interpolate (SHOPIFY_SHOP_DOMAIN E) +:+ "/admin/oauth/access_token")
    "POST"
    [("Content-Type", "application/x-www-form-urlencoded")]
    (FormBody [("grant_type", "client_credentials");
               ("client_id", interpolate (SHOPIFY_CLIENT_ID E));
               ("client_secret", interpolate (SHOPIFY_CLIENT_SECRET E))]).

(** The mutation request. The token becomes a header value through
    ToString, inside [fetch]; the body is [JSON.stringify] of the payload,
    which leaves out properties whose value is [undefined]. *)
Definition draftOrderRequest (E : Env) (accessToken variables : JSValue)
  : Throws FetchRequest :=
  let! token := ToString accessToken in
  inr (mkFetchRequest
         ("https://" +:+ interpolate (SHOPIFY_SHOP_DOMAIN E) +:+ "/admin/api/"
          +:+ SHOPIFY_API_VERSION E +:+ "/graphql.json")
         "POST"
         [("Content-Type", "application/json");
          ("X-Shopify-Access-Token", token)]
         (JsonBody (JObj [("query", JStr gql); ("variables", variables)]))).

(** [resp.headers.get("content-type") || EMPTY] *)
Definition contentType_of (resp : FetchResponse) : string :=
  if is_set (resp_content_type resp) then interpolate (resp_content_type resp) else "".

(** [let data = null; if (contentType.includes("application/json")) data = JSON.parse(rawText);] *)
Definition parse_if_json (W : Host) (contentType rawText : string) : Throws JSValue :=
  if includes contentType "application/json" then JSON_parse W rawText else inr JNull.

(** [data?.data?.draftOrderCreate?.userErrors] *)
Definition userErrors_of (data : JSValue) : JSValue :=
  get_opt (get_opt (get_opt data "data") "draftOrderCreate") "userErrors".

(** [data.data.draftOrderCreate.draftOrder] *)
Definition draftOrder_of (data : JSValue) : Throws JSValue :=
  let! d := get data "data" in
  let! c := get d "draftOrderCreate" in
  get c "draftOrder".

(** [res.json({ draft_order_id: draft.id, invoice_url: draft.invoiceUrl })] *)
Definition draft_reply (draft : JSValue) : Throws Reply :=
  let! id := get draft "id" in
  let! invoiceUrl := get draft "invoiceUrl" in
  inr (mkReply 200 (JObj [("draft_order_id", id); ("invoice_url", invoiceUrl)])).

(** The [catch] clause of both handlers. *)
Definition server_error (e : Exn) : Reply :=
  mkReply 500 (JObj [("error", JStr "Server error");
                     ("details", JStr (String_of_error e))]).

Definition error_reply (code : nat) (msg : string) : Reply :=
  mkReply code (JObj [("error", JStr msg)]).

End Relay.

(** ** The last revision *)

Module Final.
Section Final.
Context {N : JSNumber} (E : Env) (W : Host).

Definition getShopifyAccessToken : Eff JSValue :=
  if negb (is_set (SHOPIFY_SHOP_DOMAIN E))
     || negb (is_set (SHOPIFY_CLIENT_ID E))
     || negb (is_set (SHOPIFY_CLIENT_SECRET E))
  then
    lift (inl (Error "Missing Shopify environment variables. Check SHOPIFY_SHOP_DOMAIN, SHOPIFY_CLIENT_ID, SHOPIFY_CLIENT_SECRET."))
  else
    do! resp := await_fetch W (tokenRequest E) in
    let contentType := contentType_of resp in
    let rawText := resp_text resp in
    do! data := lift (parse_if_json W contentType rawText) in
    if negb (resp_ok resp) then
      lift (inl (Error ("Token request failed: status=" +:+ pretty (resp_status resp)
                        +:+ " contentType=" +:+ contentType
                        +:+ " preview=" +:+ slice0 200 rawText)))
    else if negb (truthy (get_opt data "access_token")) then
      lift (inl (Error ("Token missing access_token. contentType=" +:+ contentType
                        +:+ " preview=" +:+ slice0 200 rawText)))
    else
      lift (get data "access_token").

(** The end of the handler: what it answers once the mutation response
    has been read. *)
Definition conclude (resp : FetchResponse) (data : JSValue) : Throws Reply :=
  let userErrors := userErrors_of data in
  if negb (resp_ok resp)
     || (isArray userErrors && negb (Nat.eqb (length (elements userErrors)) 0))
  then
    inr (mkReply 400 (JObj [("error", JStr "Shopify error creating draft order");
                            ("details", coalesce userErrors data)]))
  else
    let! draft := draftOrder_of data in
    draft_reply draft.

(** Steps 3 and 4 of the handler: everything after validation. *)
Definition forward (customer shipping_address items tags note : JSValue) : Eff Reply :=
  do! accessToken := getShopifyAccessToken in
  do! lineItems := lift (lineItems items) in
  do! variables := lift (variables customer shipping_address note tags lineItems) in
  do! rq := lift (draftOrderRequest E accessToken variables) in
  do! resp := await_fetch W rq in
  do! data := lift (JSON_parse W (resp_text resp)) in
  lift (conclude resp data).

(** [app.post("/create-draft-order", ...)] *)
Definition create_draft_order (req : Request) : Reply * list FetchRequest :=
  try_catch
    (let key := header req "X-Api-Key" in
     if negb (is_set (INBOUND_API_KEY E)) || negb (bool_decide (key = INBOUND_API_KEY E))
     then ret (error_reply 401 "Unauthorized")
     else
       do! customer := lift (destructure "req.body" (body req) "customer") in
       do! shipping_address := lift (destructure "req.body" (body req) "shipping_address") in
       do! items := lift (destructure "req.body" (body req) "items") in
       do! tags := lift (destructure "req.body" (body req) "tags") in
       do! note := lift (destructure "req.body" (body req) "note") in
       let tags := or_default tags (JArr []) in
       let note := or_default note (JStr "") in
       if negb (truthy (get_opt customer "email")) then
         ret (error_reply 400 "Missing required field: customer.email")
       else if negb (truthy (get_opt shipping_address "address1")) then
         ret (error_reply 400 "Missing required field: shipping_address.address1")
       else if negb (isArray items) || Nat.eqb (length (elements items)) 0 then
         ret (error_reply 400 "Missing required field: items (must be a non-empty array)")
       else
         forward customer shipping_address items tags note)
    server_error.

End Final.
End Final.

(** ** The third revision: two ways to present the key *)

Module Rev3.
Section Rev3.
Context {N : JSNumber} (E : Env) (W : Host).

(** [v || d] for a header value [v] and a string [d]. *)
Definition or_else (v : option string) (d : string) : string :=
  if is_set v then interpolate v else d.

Definition getProvidedKey (req : Request) : string :=
  let apiKeyHeader := header req "X-Api-Key" in
  let authHeader := or_else (header req "Authorization") "" in
  let bearerToken := trim (strip_bearer authHeader) in
  or_else apiKeyHeader (or_else (Some bearerToken) "").

(** Returns what the function returns, and the reply it has sent if any. *)
Definition requireApiKey (req : Request) : bool * option Reply :=
  let providedKey := getProvidedKey req in
  if negb (is_set (INBOUND_API_KEY E))
     || negb (is_set (Some providedKey))
     || negb (bool_decide (Some providedKey = INBOUND_API_KEY E))
  then (false, Some (error_reply 401 "Unauthorized"))
  else (true, None).

Definition getShopifyAccessToken : Eff JSValue :=
  if negb (is_set (SHOPIFY_SHOP_DOMAIN E))
     || negb (is_set (SHOPIFY_CLIENT_ID E))
     || negb (is_set (SHOPIFY_CLIENT_SECRET E))
  then
    lift (inl (Error "Missing Shopify env vars: SHOPIFY_SHOP_DOMAIN/CLIENT_ID/CLIENT_SECRET"))
  else
    do! resp := await_fetch W (tokenRequest E) in
    let contentType := contentType_of resp in
    let rawText := resp_text resp in
    do! data := lift (parse_if_json W contentType rawText) in
    if negb (resp_ok resp) then
      lift (inl (Error ("Token request failed: " +:+ pretty (resp_status resp)
                        +:+ " " +:+ slice0 200 rawText)))
    else if negb (truthy (get_opt data "access_token")) then
      lift (inl (Error ("Token missing access_token: " +:+ slice0 200 rawText)))
    else
      lift (get data "access_token").

(** ToBoolean of [errs.length], for a truthy [errs]. *)
Definition length_truthy (errs : JSValue) : bool :=
  match errs with
  | JArr (_ :: _) => true
  | JStr s => negb (bool_decide (s = ""))
  | JObj props => truthy (own "length" props)
  | _ => false
  end.

Definition conclude (resp : FetchResponse) (data : JSValue) : Throws Reply :=
  let errs := userErrors_of data in
  if negb (resp_ok resp) || (truthy errs && length_truthy errs)
  then
    inr (mkReply 400 (JObj [("error", JStr "Shopify error");
                            ("details", coalesce errs data)]))
  else
    let! draft := draftOrder_of data in
    draft_reply draft.

Definition forward (customer shipping_address items tags note : JSValue) : Eff Reply :=
  do! accessToken := getShopifyAccessToken in
  do! lineItems := lift (lineItems items) in
  do! variables := lift (variables customer shipping_address note tags lineItems) in
  do! rq := lift (draftOrderRequest E accessToken variables) in
  do! resp := await_fetch W rq in
  do! data := lift (JSON_parse W (resp_text resp)) in
  lift (conclude resp data).

(** [app.post("/create-draft-order", ...)]. The reply is the one
    [requireApiKey] sent when it answers false. *)
Definition create_draft_order (req : Request) : option Reply * list FetchRequest :=
  try_catch
    (let '(authorized, sent) := requireApiKey req in
     if negb authorized then ret sent
     else
       do! customer := lift (destructure "req.body" (body req) "customer") in
       do! shipping_address := lift (destructure "req.body" (body req) "shipping_address") in
       do! items := lift (destructure "req.body" (body req) "items") in
       do! tags := lift (destructure "req.body" (body req) "tags") in
       do! note := lift (destructure "req.body" (body req) "note") in
       let tags := or_default tags (JArr []) in
       let note := or_default note (JStr "") in
       if negb (truthy (get_opt customer "email")) then
         ret (Some (error_reply 400 "Missing customer.email"))
       else if negb (truthy (get_opt shipping_address "address1")) then
         ret (Some (error_reply 400 "Missing shipping_address.address1"))
       else if negb (isArray items) || Nat.eqb (length (elements items)) 0 then
         ret (Some (error_reply 400 "Missing items[]"))
       else
         do! reply := forward customer shipping_address items tags note in
         ret (Some reply))
    (fun e => Some (server_error e)).

End Rev3.
End Rev3.

(** ** What the claims speak of *)

Section Vocabulary.
Context {N : JSNumber}.

(** [customer.email], [shipping_address.address1] and [items] of a body. *)
Definition customer_email (b : JSValue) : JSValue :=
  get_opt (get_opt b "customer") "email".

Definition address1_of (b : JSValue) : JSValue :=
  get_opt (get_opt b "shipping_address") "address1".

Definition items_of (b : JSValue) : JSValue := get_opt b "items".

(** The three required fields are there: an email, a first address line,
    and a non-empty array of items. *)
Definition passes_validation (b : JSValue) : bool :=
  truthy (customer_email b) && truthy (address1_of b) &&
  match items_of b with
  | JArr (_ :: _) => true
  | _ => false
  end.

(** [tags] and [note] after their destructuring defaults. *)
Definition tags_of (b : JSValue) : JSValue := or_default (get_opt b "tags") (JArr []).
Definition note_of (b : JSValue) : JSValue := or_default (get_opt b "note") (JStr "").

(** The mutation request a validated body leads to, given the token. *)
Definition mutationRequest (E : Env) (accessToken b : JSValue) : Throws FetchRequest :=
  let! mapped := lineItems (items_of b) in
  let! vars := variables (get_opt b "customer") (get_opt b "shipping_address")
                         (note_of b) (tags_of b) mapped in
  draftOrderRequest E accessToken vars.

(** The response reports field-level errors: a non-empty [userErrors] array. *)
Definition has_user_errors (data : JSValue) : bool :=
  match userErrors_of data with
  | JArr (_ :: _) => true
  | _ => false
  end.

(** [variables.input] of the payload of an outbound request. *)
Definition forwarded_input (rq : FetchRequest) : JSValue :=
  match fr_body rq with
  | JsonBody p => get_opt (get_opt p "variables") "input"
  | FormBody _ => JUndefined
  end.

Definition forwarded_items (rq : FetchRequest) : list JSValue :=
  elements (get_opt (forwarded_input rq) "lineItems").

(** The test of the last revision's gate,
    [!INBOUND_API_KEY || key !== INBOUND_API_KEY]. *)
Definition rejects_key (E : Env) (req : Request) : bool :=
  negb (is_set (INBOUND_API_KEY E))
  || negb (bool_decide (header req "X-Api-Key" = INBOUND_API_KEY E)).

(** The credentials the token exchange needs are all set. *)
Definition shopify_configured (E : Env) : bool :=
  is_set (SHOPIFY_SHOP_DOMAIN E) && is_set (SHOPIFY_CLIENT_ID E)
  && is_set (SHOPIFY_CLIENT_SECRET E).

(** The message of the error a token response without a usable token is
    turned into: with the status when the exchange failed, without it when
    the status was fine and only the token is missing. *)
Definition token_failure_message (resp : FetchResponse) : string :=
  if resp_ok resp then
    "Token missing access_token. contentType=" +:+ contentType_of resp
    +:+ " preview=" +:+ slice0 200 (resp_text resp)
  else
    "Token request failed: status=" +:+ pretty (resp_status resp)
    +:+ " contentType=" +:+ contentType_of resp
    +:+ " preview=" +:+ slice0 200 (resp_text resp).

(** [forwarded] is [given], or [d] when [given] is absent or null. *)
Definition defaults_to (d given forwarded : JSValue) : Prop :=
  (nullish given = true -> forwarded = d)
  /\ (nullish given = false -> forwarded = given).

(** [forwarded] is [given], or [d] when [given] is absent. *)
Definition defaults_when_absent (d given forwarded : JSValue) : Prop :=
  (given = JUndefined -> forwarded = d)
  /\ (given <> JUndefined -> forwarded = given).

(** How one item is forwarded: the title as it is, the quantity with its
    default of 1, the price as a string. *)
Definition forwarded_as (it li : JSValue) : Prop :=
  get_opt li "title" = get_opt it "title"
  /\ defaults_to (JNum (number_of_nat 1)) (get_opt it "quantity") (get_opt li "quantity")
  /\ exists s, ToString (get_opt it "price") = inr s
              /\ get_opt li "originalUnitPrice" = JStr s.

(** How an item that lacks a title or a price is forwarded. *)
Definition forwarded_bare (it li : JSValue) : Prop :=
  (get_opt it "title" = JUndefined -> get_opt li "title" = JUndefined)
  /\ (get_opt it "price" = JUndefined ->
      get_opt li "originalUnitPrice" = JStr "undefined").

(** The address fields whose default is the empty string. *)
Definition blank_by_default : list string :=
  ["firstName"; "lastName"; "address2"; "city"; "province"; "zip"; "phone"].

End Vocabulary.

(** ** Sample data *)

(** Integers as numbers, for concrete runs. *)
Definition int_number : JSNumber :=
  {| number := Z;
     number_of_nat := Z.of_nat;
     number_truthy := fun z => negb (z =? 0)%Z;
     number_to_string := pretty |}.

Module Sample.
#[local] Existing Instance int_number.

Definition quoted (s : string) : string :=
  String (ascii_of_nat 34) s +:+ String (ascii_of_nat 34) "".

Definition env : Env :=
  mkEnv (Some "s3cret") (Some "shop.myshopify.com") (Some "cid") (Some "csecret") None.

(** One item with a numeric price and no quantity; no optional field. *)
Definition order : JSValue :=
  JObj [("customer", JObj [("email", JStr "a@b.c")]);
        ("shipping_address", JObj [("address1", JStr "1 Main St")]);
        ("items", JArr [JObj [("title", JStr "Lenses"); ("price", JNum 150%Z)]])].

(** An item with neither title nor price. *)
Definition bare_order : JSValue :=
  JObj [("customer", JObj [("email", JStr "a@b.c")]);
        ("shipping_address", JObj [("address1", JStr "1 Main St")]);
        ("items", JArr [JObj [("quantity", JNum 2%Z)]])].


Definition with_key (b : JSValue) : Request := mkRequest {[ "x-api-key" := "s3cret" ]} b.
Definition with_wrong_key (b : JSValue) : Request := mkRequest {[ "x-api-key" := "guess" ]} b.
Definition with_bearer (b : JSValue) : Request :=
  mkRequest {[ "authorization" := "Bearer s3cret" ]} b.
Definition with_both (b : JSValue) : Request :=
  mkRequest {[ "x-api-key" := "s3cret"; "authorization" := "Bearer other" ]} b.
Definition without_key (b : JSValue) : Request := mkRequest ∅ b.

Definition token_text : string :=
  "{" +:+ quoted "access_token" +:+ ":" +:+ quoted "shpat_1" +:+ "}".

Definition created_text : string :=
  "{" +:+ quoted "data" +:+ ":{" +:+ quoted "draftOrderCreate" +:+ ":{"
  +:+ quoted "draftOrder" +:+ ":{" +:+ quoted "id" +:+ ":" +:+ quoted "gid://shopify/DraftOrder/1"
  +:+ "," +:+ quoted "invoiceUrl" +:+ ":" +:+ quoted "https://shop.myshopify.com/invoices/1"
  +:+ "}," +:+ quoted "userErrors" +:+ ":[]}}}".

Definition refused_text : string :=
  "{" +:+ quoted "data" +:+ ":{" +:+ quoted "draftOrderCreate" +:+ ":{"
  +:+ quoted "draftOrder" +:+ ":null," +:+ quoted "userErrors" +:+ ":[{"
  +:+ quoted "field" +:+ ":[" +:+ quoted "email" +:+ "]," +:+ quoted "message" +:+ ":"
  +:+ quoted "Email is invalid" +:+ "}]}}}".

Definition created : JSValue :=
  JObj [("data",
         JObj [("draftOrderCreate",
                JObj [("draftOrder",
                       JObj [("id", JStr "gid://shopify/DraftOrder/1");
                             ("invoiceUrl", JStr "https://shop.myshopify.com/invoices/1")]);
                      ("userErrors", JArr [])])])].

Definition email_errors : JSValue :=
  JArr [JObj [("field", JArr [JStr "email"]); ("message", JStr "Email is invalid")]].

Definition refused : JSValue :=
  JObj [("data",
         JObj [("draftOrderCreate",
                JObj [("draftOrder", JNull); ("userErrors", email_errors)])])].

(** A parser that knows the three sample documents. *)
Definition parse (text : string) : Throws JSValue :=
  if bool_decide (text = token_text) then inr (JObj [("access_token", JStr "shpat_1")])
  else if bool_decide (text = created_text) then inr created
  else if bool_decide (text = refused_text) then inr refused
  else inl (mkExn "SyntaxError" "Unexpected token < in JSON at position 0").

(** A host that answers the token exchange with [token] and the mutation
    with [mutation]. *)
Definition host (token mutation : FetchResponse) : Host :=
  mkHost (fun rq => match fr_body rq with
                    | FormBody _ => inr token
                    | JsonBody _ => inr mutation
                    end)
         parse.

Definition json (code : nat) (text : string) : FetchResponse :=
  mkFetchResponse code (Some "application/json; charset=utf-8") text.

Definition html (code : nat) (text : string) : FetchResponse :=
  mkFetchResponse code (Some "text/html; charset=utf-8") text.

Definition token_ok : FetchResponse := json 200 token_text.

(** The mutation request a sample body leads to (the token request
    stands in when none can be built). *)
Definition sent (b : JSValue) : FetchRequest :=
  match mutationRequest env (JStr "shpat_1") b with
  | inr rq => rq
  | inl _ => tokenRequest env
  end.

End Sample.

(** ** The first two revisions *)

(** The handler of [/create-draft-order] is the same text in the first and
    in the second revision; the two differ in [getShopifyAccessToken]. *)
Module Early.
Section Early.
Context {N : JSNumber} (E : Env) (W : Host) (getShopifyAccessToken : Eff JSValue).

(** ToBoolean of [errs.length], for a truthy [errs]. *)
Definition length_truthy (errs : JSValue) : bool :=
  match errs with
  | JArr (_ :: _) => true
  | JStr s => negb (bool_decide (s = ""))
  | JObj props => truthy (own "length" props)
  | _ => false
  end.

Definition conclude (resp : FetchResponse) (data : JSValue) : Throws Reply :=
  let errs := userErrors_of data in
  if negb (resp_ok resp) || (truthy errs && length_truthy errs)
  then
    inr (mkReply 400 (JObj [("error", JStr "Shopify error");
                            ("details", coalesce errs data)]))
  else
    let! draft := draftOrder_of data in
    draft_reply draft.

Definition forward (customer shipping_address items tags note : JSValue) : Eff Reply :=
  do! accessToken := getShopifyAccessToken in
  do! lineItems := lift (lineItems items) in
  do! variables := lift (variables customer shipping_address note tags lineItems) in
  do! rq := lift (draftOrderRequest E accessToken variables) in
  do! resp := await_fetch W rq in
  do! data := lift (JSON_parse W (resp_text resp)) in
  lift (conclude resp data).

(** [app.post("/create-draft-order", ...)]: one test for the three required
    fields, one message. *)
Definition create_draft_order (req : Request) : Reply * list FetchRequest :=
  try_catch
    (let key := header req "X-Api-Key" in
     if negb (is_set (INBOUND_API_KEY E)) || negb (bool_decide (key = INBOUND_API_KEY E))
     then ret (error_reply 401 "Unauthorized")
     else
       do! customer := lift (destructure "req.body" (body req) "customer") in
       do! shipping_address := lift (destructure "req.body" (body req) "shipping_address") in
       do! items := lift (destructure "req.body" (body req) "items") in
       do! tags := lift (destructure "req.body" (body req) "tags") in
       do! note := lift (destructure "req.body" (body req) "note") in
       let tags := or_default tags (JArr []) in
       let note := or_default note (JStr "") in
       if negb (truthy (get_opt customer "email"))
          || negb (truthy (get_opt shipping_address "address1"))
          || negb (isArray items)
          || Nat.eqb (length (elements items)) 0
       then ret (error_reply 400 "Missing required fields")
       else forward customer shipping_address items tags note)
    server_error.

End Early.
End Early.

Module Rev1.
Section Rev1.
Context {N : JSNumber} (E : Env) (W : Host).

(** [JSON.stringify], which the host provides. *)
Context (JSON_stringify : JSValue -> string).

(** The body is parsed as JSON whatever the response is. *)
Definition getShopifyAccessToken : Eff JSValue :=
  do! resp := await_fetch W (tokenRequest E) in
  do! data := lift (JSON_parse W (resp_text resp)) in
  if negb (resp_ok resp) then lift (inl (Error (JSON_stringify data)))
  else
    do! token := lift (get data "access_token") in
    if negb (truthy token) then lift (inl (Error (JSON_stringify data)))
    else lift (get data "access_token").

Definition create_draft_order (req : Request) : Reply * list FetchRequest :=
  Early.create_draft_order E W getShopifyAccessToken req.

End Rev1.
End Rev1.

Module Rev2.
Section Rev2.
Context {N : JSNumber} (E : Env) (W : Host).

(** The body is read as text and parsed when the content type says JSON;
    the configuration is not looked at. *)
Definition getShopifyAccessToken : Eff JSValue :=
  do! resp := await_fetch W (tokenRequest E) in
  let contentType := contentType_of resp in
  let rawText := resp_text resp in
  do! data := lift (parse_if_json W contentType rawText) in
  if negb (resp_ok resp) then
    lift (inl (Error ("Token request failed: status=" +:+ pretty (resp_status resp)
                      +:+ " contentType=" +:+ contentType
                      +:+ " preview=" +:+ slice0 200 rawText)))
  else if negb (truthy (get_opt data "access_token")) then
    lift (inl (Error ("Token missing access_token. contentType=" +:+ contentType
                      +:+ " preview=" +:+ slice0 200 rawText)))
  else
    lift (get data "access_token").

Definition create_draft_order (req : Request) : Reply * list FetchRequest :=
  Early.create_draft_order E W getShopifyAccessToken req.

End Rev2.
End Rev2.

(** ** The application: middleware and routes *)

Section Application.
Context {N : JSNumber}.

(** An inbound request as the application sees it; [request] is the
    request as the body parser hands it on, when it does. *)
Record Inbound := mkInbound {
  method : string;
  path : string;
  request : Request
}.

(** How a request ends. *)
Inductive Answer : Type :=
| Json (r : Reply)           (* res.status(code).json(payload) *)
| StatusOnly (code : nat)    (* res.sendStatus(code) *)
| NoAnswer                   (* the handler returned without sending *)
| NotRouted                  (* no route of the file matched *)
| Refused (code : nat).      (* the body parser failed the request *)

Record Outcome := mkOutcome {
  res_headers : list (string * string);   (* set with res.setHeader, in order *)
  answer : Answer;
  outbound : list FetchRequest
}.

(** Express's router: [routed verb pattern inb] tells whether the route
    registered with [app.verb(pattern, ...)] takes the request. *)
Definition Router : Type := string -> string -> Inbound -> bool.

(** [express.json(...)], the first middleware of every revision: it either
    fails the request with a status of its own (a body that does not
    parse, or one over the limit), or sets [req.body] and calls [next()]. *)
Definition BodyParser : Type := Inbound -> option nat.

(** A middleware sets headers and either ends the request or calls [next()]. *)
Definition Middleware : Type := Inbound -> list (string * string) * option Answer.

(** [app.use(express.json(...))] before everything else: a request the
    parser fails is answered by Express at once, and no later middleware
    or route of the file runs. *)
Definition parsed_by (P : BodyParser) (rest : Inbound -> Outcome) : Inbound -> Outcome :=
  fun inb =>
    match P inb with
    | Some code => mkOutcome [] (Refused code) []
    | None => rest inb
    end.

(** The CORS middleware, with the value of [Access-Control-Allow-Headers]. *)
Definition cors (allow_headers : string) : Middleware :=
  fun inb =>
    ([("Access-Control-Allow-Origin", "*");
      ("Access-Control-Allow-Headers", allow_headers);
      ("Access-Control-Allow-Methods", "GET, POST, OPTIONS")],
     if bool_decide (method inb = "OPTIONS") then Some (StatusOnly 204) else None).

(** The first revision has no middleware of its own after the body parser. *)
Definition no_middleware : Middleware := fun _ => ([], None).

(** [app.use(middleware)] before the routes. *)
Definition through (m : Middleware) (routes : Inbound -> Answer * list FetchRequest)
  : Inbound -> Outcome :=
  fun inb =>
    match m inb with
    | (hs, Some a) => mkOutcome hs a []
    | (hs, None) => let '(a, calls) := routes inb in mkOutcome hs a calls
    end.

(** [app.get("/health", ...)] *)
Definition health : Reply := mkReply 200 (JObj [("ok", JBool true)]).

(** [app.get("/ping", ...)] *)
Definition ping : Reply := mkReply 200 (JObj [("ok", JBool true); ("ping", JBool true)]).

(** Routes in the order they are registered; the first that takes the
    request answers it. *)
Definition routes_with_ping (R : Router) (handler : Request -> Answer * list FetchRequest)
  : Inbound -> Answer * list FetchRequest :=
  fun inb =>
    if R "get" "/health" inb then (Json health, [])
    else if R "get" "/ping" inb then (Json ping, [])
    else if R "post" "/create-draft-order" inb then handler (request inb)
    else (NotRouted, []).

Definition routes_without_ping (R : Router) (handler : Request -> Answer * list FetchRequest)
  : Inbound -> Answer * list FetchRequest :=
  fun inb =>
    if R "get" "/health" inb then (Json health, [])
    else if R "post" "/create-draft-order" inb then handler (request inb)
    else (NotRouted, []).

Definition answered (run : Reply * list FetchRequest) : Answer * list FetchRequest :=
  (Json (fst run), snd run).

Definition answered_if_sent (run : option Reply * list FetchRequest)
  : Answer * list FetchRequest :=
  (match fst run with Some r => Json r | None => NoAnswer end, snd run).

Definition app_rev1 (P : BodyParser) (R : Router) (stringify : JSValue -> string)
           (E : Env) (W : Host) : Inbound -> Outcome :=
  parsed_by P
    (through no_middleware
       (routes_without_ping R
          (fun req => answered (Rev1.create_draft_order E W stringify req)))).

Definition app_rev2 (P : BodyParser) (R : Router) (E : Env) (W : Host)
  : Inbound -> Outcome :=
  parsed_by P
    (through (cors "Content-Type, X-Api-Key")
       (routes_without_ping R (fun req => answered (Rev2.create_draft_order E W req)))).

Definition app_rev3 (P : BodyParser) (R : Router) (E : Env) (W : Host)
  : Inbound -> Outcome :=
  parsed_by P
    (through (cors "Content-Type, X-Api-Key, Authorization")
       (routes_with_ping R
          (fun req => answered_if_sent (Rev3.create_draft_order E W req)))).

Definition app_final (P : BodyParser) (R : Router) (E : Env) (W : Host)
  : Inbound -> Outcome :=
  parsed_by P
    (through (cors "Content-Type, X-Api-Key")
       (routes_with_ping R (fun req => answered (Final.create_draft_order E W req)))).

(** ** More vocabulary *)

(** A value that is not an object or an array: [String] never throws on it. *)
Definition primitive (v : JSValue) : bool :=
  match v with
  | JArr _ | JObj _ => false
  | _ => true
  end.

(** An item the mapping can take: not [null] or [undefined], with a
    primitive price (a number, a string, or none at all). *)
Definition plain_item (it : JSValue) : bool :=
  negb (nullish it) && primitive (get_opt it "price").

(** A GraphQL answer whose [userErrors], if any, is an array. *)
Definition array_or_absent (errs : JSValue) : bool :=
  match errs with
  | JUndefined | JNull | JArr _ => true
  | _ => false
  end.

(** The two replies have the same status. *)
Definition same_status (r1 r2 : Reply) : Prop := status r1 = status r2.

End Application.

Fixpoint all_white_space (s : string) : bool :=
  match s with
  | "" => true
  | String c rest => is_white_space c && all_white_space rest
  end.

(** A router that looks at the method and compares the path exactly. *)
Definition exact_router {N : JSNumber} : Router :=
  fun verb pattern inb =>
    bool_decide (toLowerCase (method inb) = verb) && bool_decide (path inb = pattern).

(** ** Vocabulary for comparing runs *)

Section Comparison.
Context {N : JSNumber}.

(** What the last revision answers once the mutation [rq] has been sent. *)
Definition after_mutation (W : Host) (rq : FetchRequest) : Throws Reply :=
  let! resp := fetch W rq in
  let! data := JSON_parse W (resp_text resp) in
  Final.conclude resp data.

(** Two runs made the same calls and ended alike: both threw, or both
    returned a reply with the same status. *)
Definition agree (m1 m2 : Eff Reply) : Prop :=
  snd m1 = snd m2
  /\ match fst m1, fst m2 with
     | inr r1, inr r2 => status r1 = status r2
     | inl _, inl _ => True
     | _, _ => False
     end.

(** Two token exchanges made the same calls and ended alike: both threw, or
    both returned the same token. *)
Definition same_token (m1 m2 : Eff JSValue) : Prop :=
  snd m1 = snd m2
  /\ match fst m1, fst m2 with
     | inr t1, inr t2 => t1 = t2
     | inl _, inl _ => True
     | _, _ => False
     end.

(** Every answer the host gives and parses keeps [userErrors] an array,
    when it has one: what a GraphQL endpoint sends. *)
Definition graphql_host (W : Host) : Prop :=
  forall rq resp data,
    fetch W rq = inr resp -> JSON_parse W (resp_text resp) = inr data ->
    array_or_absent (userErrors_of data) = true.

End Comparison.

(** ** Lemmas on the monads *)

Section Monads.
Context {N : JSNumber}.

Lemma bind_lift_inr {A B} (a : A) (f : A -> Eff B) : bind (lift (inr a)) f = f a.
Proof. unfold bind, lift. destruct (f a); reflexivity. Qed.

Lemma bind_lift_inl {A B} (e : Exn) (f : A -> Eff B) :
  bind (lift (inl e)) f = (inl e, []).
Proof. reflexivity. Qed.

Lemma bind_ret {A B} (a : A) (f : A -> Eff B) : bind (ret a) f = f a.
Proof. apply bind_lift_inr. Qed.

Lemma bind_returned {A B} (a : A) (calls : list FetchRequest) (f : A -> Eff B) :
  bind (inr a, calls) f = (fst (f a), (calls ++ snd (f a))%list).
Proof. unfold bind. destruct (f a); reflexivity. Qed.

Lemma bind_thrown {A B} (e : Exn) (calls : list FetchRequest) (f : A -> Eff B) :
  bind (inl e, calls) f = (inl e, calls).
Proof. reflexivity. Qed.

(** A successful bind went through both steps. *)
Lemma bind_inr_inv {A B} (m : Eff A) (f : A -> Eff B) (b : B) :
  fst (bind m f) = inr b -> exists a, fst m = inr a /\ fst (f a) = inr b.
Proof.
  destruct m as [[e | a] calls]; simpl; [discriminate |].
  destruct (f a) as [r calls'] eqn:Hf; simpl. intros ->.
  exists a. rewrite Hf. auto.
Qed.

Lemma destructure_get_opt (what : string) (b : JSValue) (k : string) :
  nullish b = false -> destructure what b k = inr (get_opt b k).
Proof. destruct b; simpl; congruence. Qed.

Lemma get_get_opt (v : JSValue) (k : string) :
  nullish v = false -> get v k = inr (get_opt v k).
Proof. destruct v; simpl; congruence. Qed.

(** A value with a truthy property is neither [undefined] nor [null]. *)
Lemma truthy_get_opt_object (v : JSValue) (k : string) :
  truthy (get_opt v k) = true -> exists props, v = JObj props.
Proof. destruct v; simpl; try discriminate. eauto. Qed.

End Monads.

(** ** The gate and the validation of the last revision *)

Section FinalGate.
Context {N : JSNumber} (E : Env) (W : Host).

Lemma rejected_request (req : Request) :
  rejects_key E req = true ->
  Final.create_draft_order E W req = (error_reply 401 "Unauthorized", []).
Proof.
  unfold rejects_key, Final.create_draft_order. intros ->. reflexivity.
Qed.

Lemma correct_key_accepted (req : Request) (k : string) :
  INBOUND_API_KEY E = Some k -> k <> "" -> header req "X-Api-Key" = Some k ->
  rejects_key E req = false.
Proof.
  intros HE Hk Hh. unfold rejects_key. rewrite HE, Hh. simpl.
  rewrite bool_decide_eq_false_2 by assumption.
  rewrite bool_decide_eq_true_2 by reflexivity. reflexivity.
Qed.

(** Past the gate, a body that can be destructured is validated field by
    field and, when valid, handed to [forward]. *)
Lemma accepted_request (req : Request) :
  rejects_key E req = false -> nullish (body req) = false ->
  Final.create_draft_order E W req =
  try_catch
    (if negb (truthy (customer_email (body req))) then
       ret (error_reply 400 "Missing required field: customer.email")
     else if negb (truthy (address1_of (body req))) then
       ret (error_reply 400 "Missing required field: shipping_address.address1")
     else if negb (isArray (items_of (body req)))
             || Nat.eqb (length (elements (items_of (body req)))) 0 then
       ret (error_reply 400 "Missing required field: items (must be a non-empty array)")
     else
       Final.forward E W (get_opt (body req) "customer")
                     (get_opt (body req) "shipping_address")
                     (items_of (body req)) (tags_of (body req)) (note_of (body req)))
    server_error.
Proof.
  intros Hkey Hbody. unfold Final.create_draft_order.
  fold (rejects_key E req). rewrite Hkey.
  rewrite !(destructure_get_opt _ _ _ Hbody).
  rewrite !bind_lift_inr. reflexivity.
Qed.

(** A body that is [undefined] or [null] cannot be destructured: the
    handler throws before any call and answers 500. *)
Lemma undestructurable_request (req : Request) :
  rejects_key E req = false -> nullish (body req) = true ->
  exists e, Final.create_draft_order E W req = (server_error e, []).
Proof.
  intros Hkey Hbody. unfold Final.create_draft_order.
  fold (rejects_key E req). rewrite Hkey.
  destruct (body req); try discriminate; simpl; eauto.
Qed.

Lemma valid_request (req : Request) :
  rejects_key E req = false -> passes_validation (body req) = true ->
  Final.create_draft_order E W req =
  try_catch
    (Final.forward E W (get_opt (body req) "customer")
                   (get_opt (body req) "shipping_address")
                   (items_of (body req)) (tags_of (body req)) (note_of (body req)))
    server_error.
Proof.
  intros Hkey Hvalid. unfold passes_validation in Hvalid.
  apply andb_prop in Hvalid as [Hvalid Hitems].
  apply andb_prop in Hvalid as [Hemail Haddr].
  rewrite accepted_request; [| assumption |].
  - rewrite Hemail, Haddr. simpl.
    destruct (items_of (body req)) as [| | | | | [| it its] |]; try discriminate.
    reflexivity.
  - unfold customer_email in Hemail.
    apply truthy_get_opt_object in Hemail as [props Hc].
    destruct (body req); simpl in *; congruence.
Qed.

Lemma invalid_request (req : Request) :
  rejects_key E req = false -> nullish (body req) = false ->
  passes_validation (body req) = false ->
  exists msg, Final.create_draft_order E W req = (error_reply 400 msg, []).
Proof.
  intros Hkey Hbody Hinvalid. rewrite accepted_request by assumption.
  unfold passes_validation in Hinvalid.
  destruct (truthy (customer_email (body req))); simpl; [| eauto].
  destruct (truthy (address1_of (body req))); simpl; [| eauto].
  simpl in Hinvalid.
  destruct (items_of (body req)) as [| | | | | [| it its] |]; simpl; eauto.
  discriminate.
Qed.

End FinalGate.

(** ** The two outbound calls of the last revision *)

Section FinalCalls.
Context {N : JSNumber} (E : Env) (W : Host).

(** The reading of a token response, after the fetch. *)
Lemma token_exchange_run (resp : FetchResponse) :
  shopify_configured E = true ->
  fetch W (tokenRequest E) = inr resp ->
  Final.getShopifyAccessToken E W =
  (let! data := parse_if_json W (contentType_of resp) (resp_text resp) in
   if negb (resp_ok resp) then
     inl (Error ("Token request failed: status=" +:+ pretty (resp_status resp)
                 +:+ " contentType=" +:+ contentType_of resp
                 +:+ " preview=" +:+ slice0 200 (resp_text resp)))
   else if negb (truthy (get_opt data "access_token")) then
     inl (Error ("Token missing access_token. contentType=" +:+ contentType_of resp
                 +:+ " preview=" +:+ slice0 200 (resp_text resp)))
   else get data "access_token",
   [tokenRequest E]).
Proof.
  unfold shopify_configured, Final.getShopifyAccessToken, await_fetch.
  intros Hcfg Hfetch.
  apply andb_prop in Hcfg as [Hcfg Hsecret]. apply andb_prop in Hcfg as [Hdom Hid].
  rewrite Hdom, Hid, Hsecret, Hfetch. simpl.
  destruct (parse_if_json W (contentType_of resp) (resp_text resp)) as [e | data];
    simpl; [reflexivity |].
  destruct (resp_ok resp); simpl; [| reflexivity].
  destruct (truthy (get_opt data "access_token")); reflexivity.
Qed.

(** A token exchange that succeeds made exactly one call. *)
Lemma token_exchange_calls (tok : JSValue) :
  fst (Final.getShopifyAccessToken E W) = inr tok ->
  Final.getShopifyAccessToken E W = (inr tok, [tokenRequest E]).
Proof.
  destruct (shopify_configured E) eqn:Hcfg.
  - destruct (fetch W (tokenRequest E)) as [e | resp] eqn:Hfetch.
    + unfold shopify_configured in Hcfg.
      apply andb_prop in Hcfg as [Hcfg Hsecret]. apply andb_prop in Hcfg as [Hdom Hid].
      unfold Final.getShopifyAccessToken, await_fetch.
      rewrite Hdom, Hid, Hsecret, Hfetch. simpl. discriminate.
    + rewrite (token_exchange_run resp Hcfg Hfetch). simpl. intros ->. reflexivity.
  - unfold shopify_configured in Hcfg. unfold Final.getShopifyAccessToken.
    destruct (is_set (SHOPIFY_SHOP_DOMAIN E)); simpl in *; [| discriminate].
    destruct (is_set (SHOPIFY_CLIENT_ID E)); simpl in *; [| discriminate].
    rewrite Hcfg. simpl. discriminate.
Qed.

(** After a successful token exchange the mutation built from the body is
    sent, and the handler answers from its response. *)
Lemma forward_run (b tok : JSValue) (rq : FetchRequest) :
  fst (Final.getShopifyAccessToken E W) = inr tok ->
  mutationRequest E tok b = inr rq ->
  Final.forward E W (get_opt b "customer") (get_opt b "shipping_address")
                (items_of b) (tags_of b) (note_of b) =
  (let! resp := fetch W rq in
   let! data := JSON_parse W (resp_text resp) in
   Final.conclude resp data,
   [tokenRequest E; rq]).
Proof.
  intros Htok Hrq. apply token_exchange_calls in Htok.
  unfold Final.forward, mutationRequest in *. rewrite Htok, bind_returned.
  destruct (lineItems (items_of b)) as [e | mapped]; [discriminate |].
  simpl in Hrq. rewrite bind_lift_inr.
  destruct (variables _ _ _ _ mapped) as [e | vars]; [discriminate |].
  simpl in Hrq. rewrite bind_lift_inr, Hrq, bind_lift_inr.
  unfold await_fetch.
  destruct (fetch W rq) as [e | resp]; simpl; [reflexivity |].
  destruct (JSON_parse W (resp_text resp)) as [e | data]; simpl; reflexivity.
Qed.

(** An exception of the token exchange ends the handler with a 500. *)
Lemma forward_token_failure (customer shipping_address items tags note : JSValue)
      (e : Exn) (calls : list FetchRequest) :
  Final.getShopifyAccessToken E W = (inl e, calls) ->
  Final.forward E W customer shipping_address items tags note = (inl e, calls).
Proof. intros H. unfold Final.forward. rewrite H. reflexivity. Qed.

End FinalCalls.

(** ** The claims *)

Section Claims.
Context {N : JSNumber}.

(** C1. A request that carries the configured key and passes validation,
    whose token exchange succeeds and whose mutation is answered with an
    OK status, no field-level errors and a draft order holding the strings
    [id] and [invoiceUrl], is answered with status 200 and the body
    [{draft_order_id: id, invoice_url: invoiceUrl}], the two strings
    unchanged; the relay made the token request and the mutation, in that
    order, and nothing else. *)
Theorem C1_success_returns_identifier_and_url
    (E : Env) (W : Host) (req : Request) (k : string)
    (tok : JSValue) (rq : FetchRequest) (resp : FetchResponse)
    (data draft : JSValue) (id url : string) :
  INBOUND_API_KEY E = Some k -> k <> "" -> header req "X-Api-Key" = Some k ->
  passes_validation (body req) = true ->
  fst (Final.getShopifyAccessToken E W) = inr tok ->
  mutationRequest E tok (body req) = inr rq ->
  fetch W rq = inr resp -> resp_ok resp = true ->
  JSON_parse W (resp_text resp) = inr data ->
  has_user_errors data = false ->
  draftOrder_of data = inr draft ->
  get_opt draft "id" = JStr id -> get_opt draft "invoiceUrl" = JStr url ->
  Final.create_draft_order E W req =
  (mkReply 200 (JObj [("draft_order_id", JStr id); ("invoice_url", JStr url)]),
   [tokenRequest E; rq]).
Proof.
  intros HE Hk Hkey Hvalid Htok Hrq Hfetch Hok Hparse Herrs Hdraft Hid Hurl.
  rewrite (valid_request E W req (correct_key_accepted E req k HE Hk Hkey) Hvalid).
  rewrite (forward_run E W _ tok rq Htok Hrq), Hfetch. simpl.
  rewrite Hparse. simpl. unfold Final.conclude. rewrite Hok.
  unfold has_user_errors in Herrs.
  replace (isArray (userErrors_of data)
           && negb (Nat.eqb (length (elements (userErrors_of data))) 0)) with false
    by (destruct (userErrors_of data) as [| | | | | [| x xs] |]; simpl in *; congruence).
  simpl. rewrite Hdraft. simpl. unfold draft_reply.
  destruct draft; simpl in Hid; try discriminate.
  simpl in Hurl. simpl. rewrite Hid, Hurl. reflexivity.
Qed.


(** C3. A request whose [X-Api-Key] header is missing, or differs from the
    configured secret, is answered with status 401 and the body
    [{error: "Unauthorized"}], and no outbound call is made, whatever its
    body is. *)
Theorem C3_wrong_key_is_unauthorized
    (E : Env) (W : Host) (req : Request) :
  header req "X-Api-Key" = None \/ header req "X-Api-Key" <> INBOUND_API_KEY E ->
  Final.create_draft_order E W req = (error_reply 401 "Unauthorized", []).
Proof.
  intros Hkey. apply rejected_request. unfold rejects_key.
  destruct (INBOUND_API_KEY E) as [secret |] eqn:HE; simpl; [| reflexivity].
  apply orb_true_iff. right. apply negb_true_iff, bool_decide_eq_false_2.
  destruct Hkey as [Hnone | Hne]; [rewrite Hnone; discriminate | assumption].
Qed.

(** C8. When the inbound secret is unset or empty, every request is
    answered with status 401 and no outbound call is made, whatever key it
    carries: in the last revision and in the third one alike. *)
Theorem C8_unconfigured_secret_fails_closed
    (E : Env) (W : Host) (req : Request) :
  INBOUND_API_KEY E = None \/ INBOUND_API_KEY E = Some "" ->
  Final.create_draft_order E W req = (error_reply 401 "Unauthorized", [])
  /\ Rev3.create_draft_order E W req = (Some (error_reply 401 "Unauthorized"), []).
Proof.
  intros Hunset.
  assert (Hset : is_set (INBOUND_API_KEY E) = false)
    by (destruct Hunset as [-> | ->]; reflexivity).
  split.
  - apply rejected_request. unfold rejects_key. rewrite Hset. reflexivity.
  - unfold Rev3.create_draft_order, Rev3.requireApiKey. rewrite Hset. reflexivity.
Qed.

End Claims.

(** ** Sample runs *)

Lemma C1_sample_run :
  Final.create_draft_order Sample.env
    (Sample.host Sample.token_ok (Sample.json 200 Sample.created_text))
    (Sample.with_key Sample.order) =
  (mkReply 200 (JObj [("draft_order_id", JStr "gid://shopify/DraftOrder/1");
                      ("invoice_url", JStr "https://shop.myshopify.com/invoices/1")]),
   [tokenRequest Sample.env; Sample.sent Sample.order]).
Proof.
  apply (C1_success_returns_identifier_and_url
           Sample.env _ _ "s3cret" (JStr "shpat_1") (Sample.sent Sample.order)
           (Sample.json 200 Sample.created_text) Sample.created
           (JObj [("id", JStr "gid://shopify/DraftOrder/1");
                  ("invoiceUrl", JStr "https://shop.myshopify.com/invoices/1")]));
    first [ discriminate | vm_compute; reflexivity ].
Defined.



Lemma C3_sample_run :
  Final.create_draft_order Sample.env
    (Sample.host Sample.token_ok (Sample.json 200 Sample.created_text))
    (Sample.with_wrong_key Sample.order) =
  (error_reply 401 "Unauthorized", []).
Proof.
  apply C3_wrong_key_is_unauthorized. right. vm_compute. discriminate.
Defined.

Lemma C8_sample_run :
  Final.create_draft_order
    (mkEnv (Some "") (Some "shop.myshopify.com") (Some "cid") (Some "csecret") None)
    (Sample.host Sample.token_ok (Sample.json 200 Sample.created_text))
    (mkRequest {[ "x-api-key" := "" ]} Sample.order) =
  (error_reply 401 "Unauthorized", [])
  /\ Rev3.create_draft_order
       (mkEnv (Some "") (Some "shop.myshopify.com") (Some "cid") (Some "csecret") None)
       (Sample.host Sample.token_ok (Sample.json 200 Sample.created_text))
       (mkRequest {[ "x-api-key" := "" ]} Sample.order) =
     (Some (error_reply 401 "Unauthorized"), []).
Proof.
  apply C8_unconfigured_secret_fails_closed. right. reflexivity.
Defined.

(** ** Lemmas on strings *)

Lemma prefix_app (p r : string) : String.prefix p (p +:+ r) = true.
Proof.
  induction p as [| c p IH]; simpl; [destruct r; reflexivity |].
  destruct (ascii_dec c c); [assumption | congruence].
Qed.

Lemma includes_prefix (s sub : string) :
  String.prefix sub s = true -> includes s sub = true.
Proof. intros H. destruct s; cbn [includes]; rewrite H; reflexivity. Qed.

Lemma includes_app_r (a s sub : string) :
  includes s sub = true -> includes (a +:+ s) sub = true.
Proof.
  intros H. induction a as [| c a IH]; [assumption |].
  change (String c a +:+ s) with (String c (a +:+ s)).
  cbn [includes]. rewrite IH. apply orb_true_r.
Qed.

(** A hole of a template literal is found in the string built. *)
Lemma includes_hole (a hole z : string) : includes (a +:+ hole +:+ z) hole = true.
Proof. apply includes_app_r, includes_prefix, prefix_app. Qed.

Lemma append_empty (s : string) : s +:+ "" = s.
Proof.
  induction s as [| c s IH]; [reflexivity |].
  change (String c s +:+ "") with (String c (s +:+ "")). congruence.
Qed.

Lemma includes_refl (s : string) : includes s s = true.
Proof.
  apply includes_prefix. pose proof (prefix_app s "") as H.
  rewrite append_empty in H. exact H.
Qed.

Lemma includes_last (a hole : string) : includes (a +:+ hole) hole = true.
Proof. apply includes_app_r, includes_refl. Qed.

Lemma drop_white_space_length (s : string) :
  String.length (drop_white_space s) <= String.length s.
Proof.
  induction s as [| c s IH]; simpl; [lia |].
  destruct (is_white_space c); simpl; lia.
Qed.

Lemma trimEnd_length (s : string) : String.length (trimEnd s) <= String.length s.
Proof.
  induction s as [| c s IH]; simpl; [lia |].
  destruct (is_white_space c && bool_decide (trimEnd s = "")); simpl; lia.
Qed.

(** A trimmed, non-empty string starts with a character that is not white
    space. *)
Lemma trimmed_start (s : string) :
  trim s = s -> drop_white_space s = s.
Proof.
  intros Htrim. destruct s as [| c s]; [reflexivity |].
  simpl. destruct (is_white_space c) eqn:Hc; [| reflexivity].
  exfalso. unfold trim in Htrim. simpl in Htrim. rewrite Hc in Htrim.
  pose proof (trimEnd_length (drop_white_space s)) as H1.
  pose proof (drop_white_space_length s) as H2.
  rewrite Htrim in H1. simpl in H1. lia.
Qed.

Lemma strip_bearer_prefix (k : string) :
  trim k = k -> k <> "" -> trim (strip_bearer ("Bearer " +:+ k)) = k.
Proof.
  intros Htrim Hk.
  change ("Bearer " +:+ k) with (String "B" (String "e" (String "a" (String "r"
            (String "e" (String "r" (String " " k))))))).
  unfold strip_bearer. simpl.
  rewrite (trimmed_start k Htrim). assumption.
Qed.

(** ** Upstream failures *)

Section UpstreamFailures.
Context {N : JSNumber}.

(** C4, amended. For a request that carries the configured key and passes
    validation, whose token exchange succeeds and whose mutation is
    answered: when the answer parses as JSON and either has a status that
    is not OK or holds a non-empty [userErrors] array, the reply has
    status 400, and the [details] of its body are [userErrors] when that
    is there (neither absent nor null), and the whole parsed response
    otherwise; when the answer does not parse, [resp.json()] throws and
    the reply is the 500 of the catch clause, whatever the status was. *)
Theorem C4_parsed_rejection_passes_details
    (E : Env) (W : Host) (req : Request) (k : string)
    (tok : JSValue) (rq : FetchRequest) (resp : FetchResponse) :
  INBOUND_API_KEY E = Some k -> k <> "" -> header req "X-Api-Key" = Some k ->
  passes_validation (body req) = true ->
  fst (Final.getShopifyAccessToken E W) = inr tok ->
  mutationRequest E tok (body req) = inr rq ->
  fetch W rq = inr resp ->
  (forall data : JSValue,
     JSON_parse W (resp_text resp) = inr data ->
     resp_ok resp = false \/ has_user_errors data = true ->
     Final.create_draft_order E W req =
     (mkReply 400
        (JObj [("error", JStr "Shopify error creating draft order");
               ("details", match userErrors_of data with
                           | JUndefined | JNull => data
                           | errs => errs
                           end)]),
      [tokenRequest E; rq]))
  /\ (forall e : Exn,
       JSON_parse W (resp_text resp) = inl e ->
       Final.create_draft_order E W req =
       (mkReply 500 (JObj [("error", JStr "Server error");
                           ("details", JStr (String_of_error e))]),
        [tokenRequest E; rq])).
Proof.
  intros HE Hk Hkey Hvalid Htok Hrq Hfetch.
  rewrite (valid_request E W req (correct_key_accepted E req k HE Hk Hkey) Hvalid).
  rewrite (forward_run E W _ tok rq Htok Hrq), Hfetch. simpl.
  split.
  - intros data Hparse Hrejected.
    rewrite Hparse. simpl. unfold Final.conclude.
    replace (negb (resp_ok resp)
             || isArray (userErrors_of data)
                && negb (Nat.eqb (length (elements (userErrors_of data))) 0)) with true.
    + simpl. unfold coalesce. destruct (userErrors_of data); reflexivity.
    + symmetry. destruct Hrejected as [-> | Herrs]; [reflexivity |].
      unfold has_user_errors in Herrs.
      destruct (userErrors_of data) as [| | | | | [| x xs] |]; try discriminate.
      apply orb_true_r.
  - intros e Hparse. rewrite Hparse. reflexivity.
Qed.

(** C5, amended. When the token endpoint answers with a content type that
    does not include [application/json], [getShopifyAccessToken] makes its
    one call, does not consult the JSON parser ([W] is any host) and
    throws an [Error] whose message holds the content type and the first
    200 characters of the body, and also the status when the status is not
    OK; a request that carries the key and passes validation is then
    answered with status 500 and that message in [details]. *)
Theorem C5_token_response_that_is_not_json
    (E : Env) (W : Host) (resp : FetchResponse) :
  shopify_configured E = true ->
  fetch W (tokenRequest E) = inr resp ->
  includes (contentType_of resp) "application/json" = false ->
  Final.getShopifyAccessToken E W =
    (inl (Error (token_failure_message resp)), [tokenRequest E])
  /\ includes (token_failure_message resp) (slice0 200 (resp_text resp)) = true
  /\ includes (token_failure_message resp) (contentType_of resp) = true
  /\ (resp_ok resp = false ->
      includes (token_failure_message resp) (pretty (resp_status resp)) = true)
  /\ forall (req : Request) (k : string),
       INBOUND_API_KEY E = Some k -> k <> "" -> header req "X-Api-Key" = Some k ->
       passes_validation (body req) = true ->
       Final.create_draft_order E W req =
       (mkReply 500 (JObj [("error", JStr "Server error");
                           ("details",
                            JStr ("Error: " +:+ token_failure_message resp))]),
        [tokenRequest E]).
Proof.
  intros Hcfg Hfetch Hct.
  assert (Hrun : Final.getShopifyAccessToken E W =
                 (inl (Error (token_failure_message resp)), [tokenRequest E])).
  { rewrite (token_exchange_run E W resp Hcfg Hfetch).
    unfold parse_if_json, token_failure_message. rewrite Hct. simpl.
    destruct (resp_ok resp); reflexivity. }
  split; [exact Hrun |].
  split.
  { unfold token_failure_message.
    destruct (resp_ok resp); repeat apply includes_app_r; apply includes_refl. }
  split.
  { unfold token_failure_message. destruct (resp_ok resp).
    - apply (includes_hole "Token missing access_token. contentType=").
    - do 2 apply includes_app_r. apply (includes_hole " contentType="). }
  split.
  { intros Hok. unfold token_failure_message. rewrite Hok.
    apply (includes_hole "Token request failed: status="). }
  intros req k HE Hk Hkey Hvalid.
  rewrite (valid_request E W req (correct_key_accepted E req k HE Hk Hkey) Hvalid).
  rewrite (forward_token_failure E W _ _ _ _ _ _ _ Hrun).
  unfold try_catch, server_error, String_of_error. simpl.
  rewrite (bool_decide_eq_false_2 (token_failure_message resp = ""));
    [reflexivity |].
  unfold token_failure_message. destruct (resp_ok resp); discriminate.
Qed.

End UpstreamFailures.

Lemma C4_sample_run :
  Final.create_draft_order Sample.env
    (Sample.host Sample.token_ok (Sample.json 200 Sample.refused_text))
    (Sample.with_key Sample.order) =
  (mkReply 400 (JObj [("error", JStr "Shopify error creating draft order");
                      ("details", Sample.email_errors)]),
   [tokenRequest Sample.env; Sample.sent Sample.order]).
Proof.
  destruct (C4_parsed_rejection_passes_details
              Sample.env
              (Sample.host Sample.token_ok (Sample.json 200 Sample.refused_text))
              (Sample.with_key Sample.order) "s3cret" (JStr "shpat_1")
              (Sample.sent Sample.order) (Sample.json 200 Sample.refused_text))
    as [Hparsed _];
    [ first [ discriminate | vm_compute; reflexivity ] .. |].
  apply (Hparsed Sample.refused); [| right]; vm_compute; reflexivity.
Defined.

(** C4 as stated fails: a mutation response whose status is not OK and
    whose body is not JSON (a gateway's error page) makes [resp.json()]
    throw, and the relay answers 500, not 400. *)
Lemma C4_gateway_page_is_answered_500 :
  header (Sample.with_key Sample.order) "X-Api-Key" = INBOUND_API_KEY Sample.env
  /\ passes_validation Sample.order = true
  /\ fetch (Sample.host Sample.token_ok (Sample.html 502 "<html>Bad Gateway</html>"))
           (Sample.sent Sample.order)
     = inr (Sample.html 502 "<html>Bad Gateway</html>")
  /\ resp_ok (Sample.html 502 "<html>Bad Gateway</html>") = false
  /\ Final.create_draft_order Sample.env
       (Sample.host Sample.token_ok (Sample.html 502 "<html>Bad Gateway</html>"))
       (Sample.with_key Sample.order) =
     (mkReply 500
        (JObj [("error", JStr "Server error");
               ("details",
                JStr "SyntaxError: Unexpected token < in JSON at position 0")]),
      [tokenRequest Sample.env; Sample.sent Sample.order]).
Proof. vm_compute. repeat split. Qed.

Lemma C5_sample_run :
  Final.getShopifyAccessToken Sample.env
    (Sample.host (Sample.html 503 "<html>Service Unavailable</html>") Sample.token_ok) =
  (inl (Error "Token request failed: status=503 contentType=text/html; charset=utf-8 preview=<html>Service Unavailable</html>"),
   [tokenRequest Sample.env]).
Proof.
  apply (C5_token_response_that_is_not_json Sample.env
           (Sample.host (Sample.html 503 "<html>Service Unavailable</html>") Sample.token_ok)
           (Sample.html 503 "<html>Service Unavailable</html>"));
    vm_compute; reflexivity.
Defined.

(** C5 as stated fails: a page served with status 200 and a content type
    that is not JSON is turned into an error whose message does not hold
    the status. *)
Lemma C5_login_page_message_has_no_status :
  includes (contentType_of (Sample.html 200 "<html>Log in</html>")) "application/json"
  = false
  /\ Final.getShopifyAccessToken Sample.env
       (Sample.host (Sample.html 200 "<html>Log in</html>") Sample.token_ok) =
     (inl (Error "Token missing access_token. contentType=text/html; charset=utf-8 preview=<html>Log in</html>"),
      [tokenRequest Sample.env])
  /\ includes "Token missing access_token. contentType=text/html; charset=utf-8 preview=<html>Log in</html>"
              (pretty 200) = false.
Proof. vm_compute. repeat split. Qed.

(** ** The field mapping *)

Section FieldMapping.
Context {N : JSNumber}.

Lemma coalesce_defaults_to (d given : JSValue) : defaults_to d given (coalesce given d).
Proof. unfold defaults_to, coalesce. split; intros ->; reflexivity. Qed.

Lemma or_default_defaults_when_absent (d given : JSValue) :
  defaults_when_absent d given (or_default given d).
Proof.
  unfold defaults_when_absent. split.
  - intros ->. reflexivity.
  - intros H. destruct given; simpl; congruence.
Qed.

Lemma lineItem_forwarded (it li : JSValue) :
  lineItem it = inr li -> forwarded_as it li.
Proof.
  unfold lineItem. intros H.
  destruct (nullish it) eqn:Hit; [destruct it; discriminate |].
  rewrite !(get_get_opt it _ Hit) in H. simpl in H.
  destruct (ToString (get_opt it "price")) as [e | s] eqn:Hprice; [discriminate |].
  simpl in H. injection H as <-.
  split; [reflexivity |].
  split; [apply coalesce_defaults_to |].
  exists s. split; [exact Hprice | reflexivity].
Qed.

Lemma map_throwing_Forall2 {A B} (f : A -> Throws B) (R : A -> B -> Prop)
      (l : list A) (l' : list B) :
  (forall x y, f x = inr y -> R x y) ->
  map_throwing f l = inr l' -> Forall2 R l l'.
Proof.
  intros Hf. revert l'. induction l as [| x l IH]; simpl; intros l' H.
  - injection H as <-. constructor.
  - destruct (f x) as [e | y] eqn:Hx; [discriminate |]. simpl in H.
    destruct (map_throwing f l) as [e | ys]; [discriminate |]. simpl in H.
    injection H as <-. constructor; auto.
Qed.

Lemma variables_of_objects (cp sp : list (string * JSValue)) (note tags mapped : JSValue) :
  variables (JObj cp) (JObj sp) note tags mapped =
  inr (JObj [("input",
              JObj [("email", own "email" cp);
                    ("shippingAddress",
                     JObj [("firstName", coalesce (own "firstName" sp) (JStr ""));
                           ("lastName", coalesce (own "lastName" sp) (JStr ""));
                           ("address1", own "address1" sp);
                           ("address2", coalesce (own "address2" sp) (JStr ""));
                           ("city", coalesce (own "city" sp) (JStr ""));
                           ("province", coalesce (own "province" sp) (JStr ""));
                           ("country", coalesce (own "country" sp) (JStr "US"));
                           ("zip", coalesce (own "zip" sp) (JStr ""));
                           ("phone", coalesce (own "phone" sp) (JStr ""))]);
                    ("note", note);
                    ("tags", tags);
                    ("lineItems", mapped)])]).
Proof. reflexivity. Qed.


(** What a validated body is forwarded as. *)
Lemma mutationRequest_input (E : Env) (tok b : JSValue) (rq : FetchRequest) :
  passes_validation b = true ->
  mutationRequest E tok b = inr rq ->
  exists cp sp mapped,
    get_opt b "customer" = JObj cp /\ get_opt b "shipping_address" = JObj sp
    /\ map_throwing lineItem (elements (items_of b)) = inr mapped
    /\ variables (JObj cp) (JObj sp) (note_of b) (tags_of b) (JArr mapped)
       = inr (JObj [("input", forwarded_input rq)]).
Proof.
  intros Hvalid Hrq. unfold passes_validation in Hvalid.
  apply andb_prop in Hvalid as [Hvalid _].
  apply andb_prop in Hvalid as [Hemail Haddr].
  apply truthy_get_opt_object in Hemail as [cp Hcp].
  apply truthy_get_opt_object in Haddr as [sp Hsp].
  unfold mutationRequest, lineItems in Hrq. rewrite Hcp, Hsp in Hrq.
  destruct (map_throwing lineItem (elements (items_of b))) as [e | mapped];
    [discriminate |].
  cbn [tbind] in Hrq. rewrite variables_of_objects in Hrq. cbn [tbind] in Hrq.
  unfold draftOrderRequest in Hrq.
  destruct (ToString tok) as [e | t]; [discriminate |]. cbn [tbind] in Hrq.
  injection Hrq as <-.
  exists cp, sp, mapped. rewrite variables_of_objects. auto.
Qed.

Lemma handler_calls (E : Env) (W : Host) (req : Request) (k : string)
      (tok : JSValue) (rq : FetchRequest) :
  INBOUND_API_KEY E = Some k -> k <> "" -> header req "X-Api-Key" = Some k ->
  passes_validation (body req) = true ->
  fst (Final.getShopifyAccessToken E W) = inr tok ->
  mutationRequest E tok (body req) = inr rq ->
  snd (Final.create_draft_order E W req) = [tokenRequest E; rq].
Proof.
  intros HE Hk Hkey Hvalid Htok Hrq.
  rewrite (valid_request E W req (correct_key_accepted E req k HE Hk Hkey) Hvalid).
  rewrite (forward_run E W _ tok rq Htok Hrq).
  unfold try_catch. destruct (tbind _ _); reflexivity.
Qed.

(** Each item of a validated body is forwarded as the mapping says. *)
Lemma mutationRequest_items (E : Env) (tok b : JSValue) (rq : FetchRequest) :
  passes_validation b = true ->
  mutationRequest E tok b = inr rq ->
  Forall2 forwarded_as (elements (items_of b)) (forwarded_items rq).
Proof.
  intros Hvalid Hrq.
  destruct (mutationRequest_input E tok b rq Hvalid Hrq)
    as (cp & sp & mapped & Hcp & Hsp & Hmapped & Hvars).
  rewrite variables_of_objects in Hvars. injection Hvars as Hinput.
  unfold forwarded_items. rewrite <- Hinput.
  apply (map_throwing_Forall2 lineItem); [apply lineItem_forwarded | exact Hmapped].
Qed.

(** C6, amended. For a request that carries the configured key and passes
    validation, whose token exchange succeeds and whose mutation request
    can be built, the relay sends that request after the token request,
    and its [variables.input] holds: the email and [address1] unchanged;
    [firstName], [lastName], [address2], [city], [province], [zip] and
    [phone] unchanged, or the empty string when absent or null; [country]
    unchanged, or [US] when absent or null; [tags] and [note] unchanged,
    or the empty array and the empty string when absent; and for each
    item its title unchanged, its quantity unchanged or 1 when absent or
    null, and as [originalUnitPrice] the string [String(price)]. *)
Theorem C6_field_mapping_with_defaults
    (E : Env) (W : Host) (req : Request) (k : string)
    (tok : JSValue) (rq : FetchRequest) :
  INBOUND_API_KEY E = Some k -> k <> "" -> header req "X-Api-Key" = Some k ->
  passes_validation (body req) = true ->
  fst (Final.getShopifyAccessToken E W) = inr tok ->
  mutationRequest E tok (body req) = inr rq ->
  let given := get_opt (body req) "shipping_address" in
  let address := get_opt (forwarded_input rq) "shippingAddress" in
  snd (Final.create_draft_order E W req) = [tokenRequest E; rq]
  /\ get_opt (forwarded_input rq) "email" = customer_email (body req)
  /\ get_opt address "address1" = address1_of (body req)
  /\ Forall (fun f => defaults_to (JStr "") (get_opt given f) (get_opt address f))
            blank_by_default
  /\ defaults_to (JStr "US") (get_opt given "country") (get_opt address "country")
  /\ defaults_when_absent (JArr []) (get_opt (body req) "tags")
                          (get_opt (forwarded_input rq) "tags")
  /\ defaults_when_absent (JStr "") (get_opt (body req) "note")
                          (get_opt (forwarded_input rq) "note")
  /\ Forall2 forwarded_as (elements (items_of (body req))) (forwarded_items rq).
Proof.
  intros HE Hk Hkey Hvalid Htok Hrq given address.
  split; [exact (handler_calls E W req k tok rq HE Hk Hkey Hvalid Htok Hrq) |].
  destruct (mutationRequest_input E tok (body req) rq Hvalid Hrq)
    as (cp & sp & mapped & Hcp & Hsp & Hmapped & Hvars).
  rewrite variables_of_objects in Hvars. injection Hvars as Hinput.
  subst given address. unfold forwarded_items, customer_email, address1_of.
  rewrite <- Hinput, Hcp, Hsp.
  split; [reflexivity |]. split; [reflexivity |].
  split; [repeat constructor; apply coalesce_defaults_to |].
  split; [apply coalesce_defaults_to |].
  split; [apply or_default_defaults_when_absent |].
  split; [apply or_default_defaults_when_absent |].
  rewrite Hinput. exact (mutationRequest_items E tok (body req) rq Hvalid Hrq).
Qed.

(** C9. A request that carries the configured key, with a truthy email and
    first address line and a non-empty [items] array, passes validation
    whatever the items hold: the handler goes on to the token exchange and
    the mutation. When the mutation is sent, an item without title is
    forwarded with [title] undefined, and an item without price with
    [originalUnitPrice] equal to the string [undefined]. *)
Theorem C9_items_are_forwarded_uninspected
    (E : Env) (W : Host) (req : Request) (k : string) (items : list JSValue) :
  INBOUND_API_KEY E = Some k -> k <> "" -> header req "X-Api-Key" = Some k ->
  truthy (customer_email (body req)) = true ->
  truthy (address1_of (body req)) = true ->
  items_of (body req) = JArr items -> items <> [] ->
  Final.create_draft_order E W req =
    try_catch
      (Final.forward E W (get_opt (body req) "customer")
                     (get_opt (body req) "shipping_address")
                     (JArr items) (tags_of (body req)) (note_of (body req)))
      server_error
  /\ forall (tok : JSValue) (rq : FetchRequest),
       fst (Final.getShopifyAccessToken E W) = inr tok ->
       mutationRequest E tok (body req) = inr rq ->
       snd (Final.create_draft_order E W req) = [tokenRequest E; rq]
       /\ Forall2 forwarded_bare items (forwarded_items rq).
Proof.
  intros HE Hk Hkey Hemail Haddr Hitems Hnonempty.
  assert (Hvalid : passes_validation (body req) = true).
  { unfold passes_validation. rewrite Hemail, Haddr, Hitems.
    destruct items; [congruence | reflexivity]. }
  split.
  - rewrite <- Hitems.
    exact (valid_request E W req (correct_key_accepted E req k HE Hk Hkey) Hvalid).
  - intros tok rq Htok Hrq.
    split; [exact (handler_calls E W req k tok rq HE Hk Hkey Hvalid Htok Hrq) |].
    pose proof (mutationRequest_items E tok (body req) rq Hvalid Hrq) as Hall.
    rewrite Hitems in Hall. simpl in Hall.
    eapply Forall2_impl; [exact Hall |].
    intros it li (Htitle & _ & s & Hprice & Hsent). split.
    + intros Hno. rewrite Htitle. exact Hno.
    + intros Hno. rewrite Hno in Hprice. simpl in Hprice.
      injection Hprice as <-. exact Hsent.
Qed.


End FieldMapping.

Lemma C6_sample_run :
  snd (Final.create_draft_order Sample.env
         (Sample.host Sample.token_ok (Sample.json 200 Sample.created_text))
         (Sample.with_key Sample.order))
  = [tokenRequest Sample.env; Sample.sent Sample.order].
Proof.
  apply (C6_field_mapping_with_defaults
           Sample.env _ (Sample.with_key Sample.order) "s3cret" (JStr "shpat_1"));
    first [ discriminate | vm_compute; reflexivity ].
Defined.

(** C6 as stated fails: a price that is present is not passed through
    unchanged. The number 150 of the sample order is forwarded as the
    string of its digits. *)
Lemma C6_price_is_not_forwarded_unchanged :
  header (Sample.with_key Sample.order) "X-Api-Key" = INBOUND_API_KEY Sample.env
  /\ passes_validation Sample.order = true
  /\ snd (Final.create_draft_order Sample.env
            (Sample.host Sample.token_ok (Sample.json 200 Sample.created_text))
            (Sample.with_key Sample.order))
     = [tokenRequest Sample.env; Sample.sent Sample.order]
  /\ map (fun it => get_opt it "price") (elements (items_of Sample.order))
     = [JNum (N := int_number) 150%Z]
  /\ map (fun li => get_opt li "originalUnitPrice") (forwarded_items (Sample.sent Sample.order))
     = [JStr "150"]
  /\ JStr "150" <> JNum (N := int_number) 150%Z.
Proof. vm_compute. repeat split. discriminate. Qed.

Lemma C9_sample_run :
  Forall2 forwarded_bare [JObj [("quantity", JNum (N := int_number) 2%Z)]]
          (forwarded_items (Sample.sent Sample.bare_order)).
Proof.
  destruct (C9_items_are_forwarded_uninspected
              Sample.env
              (Sample.host Sample.token_ok (Sample.json 200 Sample.created_text))
              (Sample.with_key Sample.bare_order) "s3cret"
              [JObj [("quantity", JNum (N := int_number) 2%Z)]]) as [_ H];
    [ first [ discriminate | vm_compute; reflexivity ] .. |].
  apply (H (JStr "shpat_1") (Sample.sent Sample.bare_order)); vm_compute; reflexivity.
Defined.

(** ** The third revision: bearer tokens *)

Section Third.
Context {N : JSNumber}.

(** Past [requireApiKey], the handler reads the body only. *)
Lemma rev3_accepted_request (E : Env) (W : Host) (req : Request) :
  Rev3.requireApiKey E req = (true, None) ->
  Rev3.create_draft_order E W req =
  try_catch
    (do! customer := lift (destructure "req.body" (body req) "customer") in
     do! shipping_address := lift (destructure "req.body" (body req) "shipping_address") in
     do! items := lift (destructure "req.body" (body req) "items") in
     do! tags := lift (destructure "req.body" (body req) "tags") in
     do! note := lift (destructure "req.body" (body req) "note") in
     let tags := or_default tags (JArr []) in
     let note := or_default note (JStr "") in
     if negb (truthy (get_opt customer "email")) then
       ret (Some (error_reply 400 "Missing customer.email"))
     else if negb (truthy (get_opt shipping_address "address1")) then
       ret (Some (error_reply 400 "Missing shipping_address.address1"))
     else if negb (isArray items) || Nat.eqb (length (elements items)) 0 then
       ret (Some (error_reply 400 "Missing items[]"))
     else
       do! reply := Rev3.forward E W customer shipping_address items tags note in
       ret (Some reply))
    (fun e => Some (server_error e)).
Proof. intros H. unfold Rev3.create_draft_order. rewrite H. reflexivity. Qed.

Lemma draft_reply_status (draft : JSValue) (r : Reply) :
  draft_reply draft = inr r -> status r = 200.
Proof.
  unfold draft_reply. destruct (get draft "id"); [discriminate |]. simpl.
  destruct (get draft "invoiceUrl"); [discriminate |]. simpl.
  intros H. injection H as <-. reflexivity.
Qed.

Lemma rev3_conclude_status (resp : FetchResponse) (data : JSValue) (r : Reply) :
  Rev3.conclude resp data = inr r -> status r = 400 \/ status r = 200.
Proof.
  unfold Rev3.conclude.
  destruct (negb (resp_ok resp) || _).
  - intros H. injection H as <-. left. reflexivity.
  - destruct (draftOrder_of data) as [e | draft]; [discriminate |]. simpl.
    intros H. right. exact (draft_reply_status draft r H).
Qed.

Lemma rev3_forward_status (E : Env) (W : Host)
      (customer shipping_address items tags note : JSValue) (r : Reply) :
  fst (Rev3.forward E W customer shipping_address items tags note) = inr r ->
  status r = 400 \/ status r = 200.
Proof.
  unfold Rev3.forward. intros H.
  repeat (apply bind_inr_inv in H as (? & _ & H)).
  unfold lift in H. cbn [fst] in H. exact (rev3_conclude_status _ _ _ H).
Qed.

(** A request that passes [requireApiKey] is never answered 401. *)
Lemma rev3_accepted_not_401 (E : Env) (W : Host) (req : Request) (r : Reply) :
  Rev3.requireApiKey E req = (true, None) ->
  fst (Rev3.create_draft_order E W req) = Some r -> status r <> 401.
Proof.
  intros Hauth. rewrite (rev3_accepted_request E W req Hauth).
  match goal with |- fst (try_catch ?m _) = _ -> _ => destruct m as [[e | o] calls] eqn:Hm end;
    simpl.
  - intros H. injection H as <-. discriminate.
  - intros ->. apply (f_equal fst) in Hm. cbn [fst] in Hm.
    repeat (apply bind_inr_inv in Hm as (? & _ & Hm)).
    repeat match type of Hm with
           | fst (if ?c then _ else _) = _ => destruct c
           end;
      try (unfold ret in Hm; cbn [fst] in Hm; injection Hm as <-; discriminate).
    apply bind_inr_inv in Hm as (reply & Hf & Hm).
    unfold ret in Hm. cbn [fst] in Hm. injection Hm as <-.
    destruct (rev3_forward_status _ _ _ _ _ _ _ _ Hf) as [-> | ->]; discriminate.
Qed.

Lemma api_key_header_read (req : Request) (k : string) :
  header req "X-Api-Key" = Some k -> k <> "" -> Rev3.getProvidedKey req = k.
Proof.
  intros Hkey Hk. unfold Rev3.getProvidedKey, Rev3.or_else at 1.
  rewrite Hkey. simpl. rewrite (bool_decide_eq_false_2 _ Hk). reflexivity.
Qed.

Lemma provided_key_accepted (E : Env) (req : Request) (k : string) :
  INBOUND_API_KEY E = Some k -> k <> "" -> Rev3.getProvidedKey req = k ->
  Rev3.requireApiKey E req = (true, None).
Proof.
  intros HE Hk Hkey. unfold Rev3.requireApiKey. rewrite HE, Hkey. simpl.
  rewrite (bool_decide_eq_false_2 _ Hk).
  rewrite bool_decide_eq_true_2 by reflexivity. reflexivity.
Qed.

Lemma bearer_token_read (req : Request) (k : string) :
  is_set (header req "X-Api-Key") = false ->
  header req "Authorization" = Some ("Bearer " +:+ k) ->
  trim k = k -> k <> "" ->
  Rev3.getProvidedKey req = k.
Proof.
  intros Hnone Hauth Htrim Hk. unfold Rev3.getProvidedKey.
  unfold Rev3.or_else at 1. rewrite Hnone.
  unfold Rev3.or_else at 2. rewrite Hauth.
  change (is_set (Some ("Bearer " +:+ k))) with true. cbn [interpolate].
  rewrite (strip_bearer_prefix k Htrim Hk).
  unfold Rev3.or_else. simpl. rewrite (bool_decide_eq_false_2 _ Hk). reflexivity.
Qed.

(** C7, amended. In the third revision a request without a usable
    [X-Api-Key] whose [Authorization] header is [Bearer], one space and
    the configured secret (a non-empty string without white space at
    either end) passes [requireApiKey]: it is never answered 401, and it is
    answered exactly as a request with the same body that carries the
    secret in [X-Api-Key]. The last revision reads [X-Api-Key] only and
    answers the same request 401. *)
Theorem C7_bearer_key_is_read_by_the_third_revision_only
    (E : Env) (W : Host) (req : Request) (k : string) :
  INBOUND_API_KEY E = Some k -> k <> "" -> trim k = k ->
  is_set (header req "X-Api-Key") = false ->
  header req "Authorization" = Some ("Bearer " +:+ k) ->
  Rev3.requireApiKey E req = (true, None)
  /\ (forall r, fst (Rev3.create_draft_order E W req) = Some r -> status r <> 401)
  /\ (forall req', header req' "X-Api-Key" = Some k -> body req' = body req ->
                  Rev3.create_draft_order E W req' = Rev3.create_draft_order E W req)
  /\ Final.create_draft_order E W req = (error_reply 401 "Unauthorized", []).
Proof.
  intros HE Hk Htrim Hnone Hauth.
  assert (Hpass : Rev3.requireApiKey E req = (true, None))
    by exact (provided_key_accepted E req k HE Hk
                (bearer_token_read req k Hnone Hauth Htrim Hk)).
  split; [exact Hpass |].
  split; [intros r; exact (rev3_accepted_not_401 E W req r Hpass) |].
  split.
  - intros req' Hkey' Hbody.
    rewrite (rev3_accepted_request E W req Hpass).
    rewrite (rev3_accepted_request E W req'
               (provided_key_accepted E req' k HE Hk (api_key_header_read req' k Hkey' Hk))).
    rewrite Hbody. reflexivity.
  - apply rejected_request. unfold rejects_key. rewrite HE. simpl.
    rewrite (bool_decide_eq_false_2 _ Hk). simpl.
    apply negb_true_iff, bool_decide_eq_false_2.
    intros Heq. rewrite Heq in Hnone. simpl in Hnone.
    rewrite (bool_decide_eq_false_2 _ Hk) in Hnone. discriminate.
Qed.

(** C10. In the third revision a non-empty [X-Api-Key] is the key the
    request presents, whatever its [Authorization] header holds; and a
    request whose derived key is empty is answered 401 without any
    outbound call, whatever the configured secret is, the empty string
    included. *)
Theorem C10_api_key_header_takes_precedence
    (E : Env) (W : Host) (req : Request) :
  (forall k, header req "X-Api-Key" = Some k -> k <> "" ->
             Rev3.getProvidedKey req = k)
  /\ (Rev3.getProvidedKey req = "" ->
      Rev3.create_draft_order E W req = (Some (error_reply 401 "Unauthorized"), [])).
Proof.
  split.
  - intros k. apply api_key_header_read.
  - intros Hempty. unfold Rev3.create_draft_order, Rev3.requireApiKey.
    rewrite Hempty. simpl. rewrite orb_true_r. reflexivity.
Qed.

End Third.

Lemma C7_sample_run :
  Rev3.requireApiKey Sample.env (Sample.with_bearer Sample.order) = (true, None).
Proof.
  apply (C7_bearer_key_is_read_by_the_third_revision_only
           Sample.env (Sample.host Sample.token_ok (Sample.json 200 Sample.created_text))
           (Sample.with_bearer Sample.order) "s3cret");
    first [ discriminate | vm_compute; reflexivity ].
Defined.

(** C7 as stated fails: the last revision answers 401 to a request that
    presents the configured secret as a bearer token. *)
Lemma C7_last_revision_rejects_bearer :
  INBOUND_API_KEY Sample.env = Some "s3cret"
  /\ header (Sample.with_bearer Sample.order) "Authorization" = Some "Bearer s3cret"
  /\ Final.create_draft_order Sample.env
       (Sample.host Sample.token_ok (Sample.json 200 Sample.created_text))
       (Sample.with_bearer Sample.order)
     = (error_reply 401 "Unauthorized", []).
Proof. vm_compute. repeat split. Qed.

Lemma C10_sample_run :
  Rev3.getProvidedKey (Sample.with_both Sample.order) = "s3cret"
  /\ Rev3.create_draft_order
       (mkEnv (Some "") (Some "shop.myshopify.com") (Some "cid") (Some "csecret") None)
       (Sample.host Sample.token_ok (Sample.json 200 Sample.created_text))
       (Sample.without_key Sample.order)
     = (Some (error_reply 401 "Unauthorized"), []).
Proof.
  split.
  - apply (proj1 (C10_api_key_header_takes_precedence
                    Sample.env
                    (Sample.host Sample.token_ok (Sample.json 200 Sample.created_text))
                    (Sample.with_both Sample.order)));
      [vm_compute; reflexivity | discriminate].
  - apply (proj2 (C10_api_key_header_takes_precedence _ _ _)).
    vm_compute. reflexivity.
Defined.


(** ** Further runs of the model *)

(** An item that is [null] passes validation, and [items.map] throws on it
    after the token exchange: one call, then 500. *)
Example null_item_run :
  Final.create_draft_order Sample.env
    (Sample.host Sample.token_ok (Sample.json 200 Sample.created_text))
    (Sample.with_key
       (JObj [("customer", JObj [("email", JStr "a@b.c")]);
              ("shipping_address", JObj [("address1", JStr "1 Main St")]);
              ("items", JArr [JNull])]))
  = (mkReply 500
       (JObj [("error", JStr "Server error");
              ("details",
               JStr "TypeError: Cannot read properties of null (reading 'title')")]),
     [tokenRequest Sample.env]).
Proof. vm_compute. reflexivity. Qed.

(** A body left [undefined] cannot be destructured: 500, no call. *)
Example undefined_body_run :
  Final.create_draft_order Sample.env
    (Sample.host Sample.token_ok (Sample.json 200 Sample.created_text))
    (Sample.with_key JUndefined)
  = (mkReply 500
       (JObj [("error", JStr "Server error");
              ("details",
               JStr "TypeError: Cannot destructure property 'customer' of 'req.body' as it is undefined.")]),
     []).
Proof. vm_compute. reflexivity. Qed.

(** A status that is not OK with an empty [userErrors] array: the details
    are that empty array, not the whole response. *)
Example empty_errors_run :
  Final.conclude (Sample.json 422 Sample.created_text) Sample.created
  = inr (mkReply 400 (JObj [("error", JStr "Shopify error creating draft order");
                            ("details", JArr [])])).
Proof. vm_compute. reflexivity. Qed.

(** The scheme word is matched in any case, and the white space around the
    token is dropped. *)
Example bearer_forms :
  Rev3.getProvidedKey (mkRequest (N := int_number)
                         {[ "authorization" := "bearer    s3cret  " ]} JUndefined)
  = "s3cret"
  /\ Rev3.getProvidedKey (mkRequest (N := int_number)
                            {[ "authorization" := "Basic s3cret" ]} JUndefined)
     = "Basic s3cret"
  /\ Rev3.getProvidedKey (mkRequest (N := int_number)
                            {[ "authorization" := "Bearers3cret" ]} JUndefined)
     = "Bearers3cret".
Proof. vm_compute. repeat split. Qed.

Example ToString_forms :
  ToString (JArr [JNum (N := int_number) 1%Z; JNull; JArr [JStr "a"; JBool true]; JObj []])
  = inr "1,,a,true,[object Object]"
  /\ ToString (JNum (N := int_number) (-15)%Z) = inr "-15"
  /\ ToString (JObj [("toString", JNum (N := int_number) 1%Z)])
     = inl (TypeError "Cannot convert object to primitive value").
Proof. vm_compute. repeat split. Qed.

(** * Further properties of the code *)

(** ** The token exchange of the last revision, case by case *)

Section TokenExchange.
Context {N : JSNumber} (E : Env) (W : Host).

Lemma token_exchange_unconfigured_run :
  shopify_configured E = false ->
  Final.getShopifyAccessToken E W =
  (inl (Error "Missing Shopify environment variables. Check SHOPIFY_SHOP_DOMAIN, SHOPIFY_CLIENT_ID, SHOPIFY_CLIENT_SECRET."),
   []).
Proof.
  unfold shopify_configured, Final.getShopifyAccessToken. intros Hcfg.
  destruct (is_set (SHOPIFY_SHOP_DOMAIN E)); [| reflexivity].
  destruct (is_set (SHOPIFY_CLIENT_ID E)); [| reflexivity].
  simpl in Hcfg. rewrite Hcfg. reflexivity.
Qed.

Lemma token_exchange_rejected (e : Exn) :
  shopify_configured E = true ->
  fetch W (tokenRequest E) = inl e ->
  Final.getShopifyAccessToken E W = (inl e, [tokenRequest E]).
Proof.
  unfold shopify_configured, Final.getShopifyAccessToken, await_fetch.
  intros Hcfg Hfetch.
  apply andb_prop in Hcfg as [Hcfg Hsecret]. apply andb_prop in Hcfg as [Hdom Hid].
  rewrite Hdom, Hid, Hsecret, Hfetch. reflexivity.
Qed.

(** The calls of a token exchange: none, or the one token request. *)
Lemma token_exchange_trace :
  snd (Final.getShopifyAccessToken E W) = []
  \/ snd (Final.getShopifyAccessToken E W) = [tokenRequest E].
Proof.
  destruct (shopify_configured E) eqn:Hcfg.
  - right. destruct (fetch W (tokenRequest E)) as [e | resp] eqn:Hfetch.
    + rewrite (token_exchange_rejected e Hcfg Hfetch). reflexivity.
    + rewrite (token_exchange_run E W resp Hcfg Hfetch). reflexivity.
  - left. rewrite (token_exchange_unconfigured_run Hcfg). reflexivity.
Qed.

End TokenExchange.

Section TokenExchangeProperties.
Context {N : JSNumber}.

(** X1. When one of the three Shopify settings is unset or empty, the token
    exchange of the last revision throws before any call, and a request
    that carries the key and passes validation is answered 500 with the
    message that names the settings; nothing is sent upstream. *)
Theorem X1_unconfigured_exchange_makes_no_call
    (E : Env) (W : Host) :
  shopify_configured E = false ->
  Final.getShopifyAccessToken E W =
    (inl (Error "Missing Shopify environment variables. Check SHOPIFY_SHOP_DOMAIN, SHOPIFY_CLIENT_ID, SHOPIFY_CLIENT_SECRET."),
     [])
  /\ forall (req : Request) (k : string),
       INBOUND_API_KEY E = Some k -> k <> "" -> header req "X-Api-Key" = Some k ->
       passes_validation (body req) = true ->
       Final.create_draft_order E W req =
       (mkReply 500
          (JObj [("error", JStr "Server error");
                 ("details",
                  JStr "Error: Missing Shopify environment variables. Check SHOPIFY_SHOP_DOMAIN, SHOPIFY_CLIENT_ID, SHOPIFY_CLIENT_SECRET.")]),
        []).
Proof.
  intros Hcfg. pose proof (token_exchange_unconfigured_run E W Hcfg) as Hrun.
  split; [exact Hrun |].
  intros req k HE Hk Hkey Hvalid.
  rewrite (valid_request E W req (correct_key_accepted E req k HE Hk Hkey) Hvalid).
  rewrite (forward_token_failure E W _ _ _ _ _ _ _ Hrun). reflexivity.
Qed.

(** X2. The token exchange of the last revision returns a token exactly
    when the settings are there and the endpoint answers with an OK
    status, a content type that includes [application/json], a body that
    parses, and a truthy [access_token], which is the token returned. *)
Theorem X2_token_is_returned_only_from_an_ok_json_answer
    (E : Env) (W : Host) (tok : JSValue) :
  fst (Final.getShopifyAccessToken E W) = inr tok <->
  shopify_configured E = true
  /\ exists (resp : FetchResponse) (data : JSValue),
       fetch W (tokenRequest E) = inr resp
       /\ resp_ok resp = true
       /\ includes (contentType_of resp) "application/json" = true
       /\ JSON_parse W (resp_text resp) = inr data
       /\ get_opt data "access_token" = tok
       /\ truthy tok = true.
Proof.
  split.
  - intros Htok. destruct (shopify_configured E) eqn:Hcfg.
    2:{ rewrite (token_exchange_unconfigured_run E W Hcfg) in Htok. discriminate. }
    split; [reflexivity |].
    destruct (fetch W (tokenRequest E)) as [e | resp] eqn:Hfetch.
    { rewrite (token_exchange_rejected E W e Hcfg Hfetch) in Htok. discriminate. }
    rewrite (token_exchange_run E W resp Hcfg Hfetch) in Htok. cbn [fst] in Htok.
    unfold parse_if_json in Htok.
    destruct (includes (contentType_of resp) "application/json") eqn:Hct.
    + destruct (JSON_parse W (resp_text resp)) as [e | data] eqn:Hparse;
        [discriminate |].
      cbn [tbind] in Htok.
      destruct (resp_ok resp) eqn:Hok; [| discriminate]. cbn [negb] in Htok.
      destruct (truthy (get_opt data "access_token")) eqn:Htruthy; [| discriminate].
      cbn [negb] in Htok.
      assert (Hdata : nullish data = false) by (destruct data; simpl in *; congruence).
      rewrite (get_get_opt data _ Hdata) in Htok. injection Htok as <-.
      exists resp, data. repeat split; first [assumption | reflexivity].
    + cbn [tbind] in Htok. destruct (resp_ok resp); discriminate.
  - intros (Hcfg & resp & data & Hfetch & Hok & Hct & Hparse & Htok & Htruthy).
    rewrite (token_exchange_run E W resp Hcfg Hfetch). cbn [fst].
    unfold parse_if_json. rewrite Hct, Hparse. cbn [tbind]. rewrite Hok, Htok, Htruthy.
    cbn [negb].
    assert (Hdata : nullish data = false)
      by (destruct data; simpl in *; subst; simpl in *; congruence).
    rewrite (get_get_opt data _ Hdata), Htok. reflexivity.
Qed.

(** X3. A token answer that declares JSON and does not parse makes the
    exchange throw the parser's error, whatever the status is (the parse
    comes before the status test); the relay answers 500 with that error
    after its one call. *)
Theorem X3_malformed_json_answer_throws_the_parse_error
    (E : Env) (W : Host) (resp : FetchResponse) (e : Exn) :
  shopify_configured E = true ->
  fetch W (tokenRequest E) = inr resp ->
  includes (contentType_of resp) "application/json" = true ->
  JSON_parse W (resp_text resp) = inl e ->
  Final.getShopifyAccessToken E W = (inl e, [tokenRequest E])
  /\ forall (req : Request) (k : string),
       INBOUND_API_KEY E = Some k -> k <> "" -> header req "X-Api-Key" = Some k ->
       passes_validation (body req) = true ->
       Final.create_draft_order E W req = (server_error e, [tokenRequest E]).
Proof.
  intros Hcfg Hfetch Hct Hparse.
  assert (Hrun : Final.getShopifyAccessToken E W = (inl e, [tokenRequest E])).
  { rewrite (token_exchange_run E W resp Hcfg Hfetch).
    unfold parse_if_json. rewrite Hct, Hparse. reflexivity. }
  split; [exact Hrun |].
  intros req k HE Hk Hkey Hvalid.
  rewrite (valid_request E W req (correct_key_accepted E req k HE Hk Hkey) Hvalid).
  rewrite (forward_token_failure E W _ _ _ _ _ _ _ Hrun). reflexivity.
Qed.

Lemma append_assoc (a b c : string) : (a +:+ b) +:+ c = a +:+ (b +:+ c).
Proof.
  induction a as [| x a IH]; [reflexivity |].
  change ((String x a +:+ b) +:+ c) with (String x ((a +:+ b) +:+ c)).
  change (String x a +:+ (b +:+ c)) with (String x (a +:+ (b +:+ c))).
  congruence.
Qed.

Lemma slice0_length (n : nat) (s : string) : String.length (slice0 n s) <= n.
Proof.
  revert s. induction n as [| n IH]; intros [| c s]; simpl; try lia.
  specialize (IH s). lia.
Qed.

Lemma slice0_prefix (n : nat) (s : string) : exists rest, s = slice0 n s +:+ rest.
Proof.
  revert s. induction n as [| n IH]; intros s.
  - exists s. destruct s; reflexivity.
  - destruct s as [| c s]; [exists ""; reflexivity |].
    destruct (IH s) as [rest Hrest]. exists rest.
    cbn [slice0]. change (String c (slice0 n s) +:+ rest) with (String c (slice0 n s +:+ rest)).
    congruence.
Qed.

Lemma slice0_short (n : nat) (s : string) : String.length s <= n -> slice0 n s = s.
Proof.
  revert s. induction n as [| n IH]; intros [| c s]; simpl; intros H;
    try reflexivity; try lia.
  rewrite IH by lia. reflexivity.
Qed.

(** X4. When the body of the token answer could be read (parsed, or not
    JSON by its content type) and the status is not OK or the token is
    missing, the exchange throws its descriptive message, which ends with
    a preview that is a prefix of the body, at most 200 characters long,
    and the whole body when that is no longer. *)
Theorem X4_failed_exchange_reports_a_bounded_preview
    (E : Env) (W : Host) (resp : FetchResponse) (data : JSValue) :
  shopify_configured E = true ->
  fetch W (tokenRequest E) = inr resp ->
  parse_if_json W (contentType_of resp) (resp_text resp) = inr data ->
  resp_ok resp = false \/ truthy (get_opt data "access_token") = false ->
  Final.getShopifyAccessToken E W =
    (inl (Error (token_failure_message resp)), [tokenRequest E])
  /\ (exists head preview rest,
        token_failure_message resp = head +:+ preview
        /\ resp_text resp = preview +:+ rest
        /\ String.length preview <= 200
        /\ (String.length (resp_text resp) <= 200 -> preview = resp_text resp)).
Proof.
  intros Hcfg Hfetch Hparse Hfailed. split.
  - rewrite (token_exchange_run E W resp Hcfg Hfetch), Hparse. cbn [tbind].
    unfold token_failure_message.
    destruct (resp_ok resp); cbn [negb]; [| reflexivity].
    destruct Hfailed as [Hok | ->]; [discriminate | reflexivity].
  - destruct (slice0_prefix 200 (resp_text resp)) as [rest Hrest].
    exists (if resp_ok resp
            then "Token missing access_token. contentType=" +:+ contentType_of resp
                 +:+ " preview="
            else "Token request failed: status=" +:+ pretty (resp_status resp)
                 +:+ " contentType=" +:+ contentType_of resp +:+ " preview="),
           (slice0 200 (resp_text resp)), rest.
    split; [| split; [exact Hrest | split; [apply slice0_length | apply slice0_short]]].
    unfold token_failure_message.
    destruct (resp_ok resp); rewrite ?append_assoc; reflexivity.
Qed.

End TokenExchangeProperties.

(** ** Every run of the last revision's handler *)

Section FinalRuns.
Context {N : JSNumber} (E : Env) (W : Host).

Lemma forward_unbuildable (b tok : JSValue) (e : Exn) :
  fst (Final.getShopifyAccessToken E W) = inr tok ->
  mutationRequest E tok b = inl e ->
  Final.forward E W (get_opt b "customer") (get_opt b "shipping_address")
                (items_of b) (tags_of b) (note_of b) =
  (inl e, [tokenRequest E]).
Proof.
  intros Htok Hrq. apply token_exchange_calls in Htok.
  unfold Final.forward, mutationRequest in *. rewrite Htok, bind_returned.
  destruct (lineItems (items_of b)) as [e1 | mapped].
  { cbn [tbind] in Hrq. injection Hrq as ->. reflexivity. }
  cbn [tbind] in Hrq. rewrite bind_lift_inr.
  destruct (variables _ _ _ _ mapped) as [e2 | vars].
  { cbn [tbind] in Hrq. injection Hrq as ->. reflexivity. }
  cbn [tbind] in Hrq. rewrite bind_lift_inr, Hrq. reflexivity.
Qed.

(** The three ways a validated request goes on. *)
Lemma valid_run_cases (req : Request) :
  rejects_key E req = false -> passes_validation (body req) = true ->
  (exists e, fst (Final.getShopifyAccessToken E W) = inl e
             /\ Final.create_draft_order E W req
                = (server_error e, snd (Final.getShopifyAccessToken E W)))
  \/ (exists tok e, fst (Final.getShopifyAccessToken E W) = inr tok
                    /\ mutationRequest E tok (body req) = inl e
                    /\ Final.create_draft_order E W req
                       = (server_error e, [tokenRequest E]))
  \/ (exists tok rq, fst (Final.getShopifyAccessToken E W) = inr tok
                     /\ mutationRequest E tok (body req) = inr rq
                     /\ Final.create_draft_order E W req
                        = (match after_mutation W rq with
                           | inl e => server_error e
                           | inr r => r
                           end, [tokenRequest E; rq])).
Proof.
  intros Hkey Hvalid. rewrite (valid_request E W req Hkey Hvalid).
  destruct (Final.getShopifyAccessToken E W) as [[e | tok] calls] eqn:Htoken.
  - left. exists e. split; [reflexivity |].
    rewrite (forward_token_failure E W _ _ _ _ _ _ _ Htoken). reflexivity.
  - right. assert (Htok : fst (Final.getShopifyAccessToken E W) = inr tok)
      by (rewrite Htoken; reflexivity).
    destruct (mutationRequest E tok (body req)) as [e | rq] eqn:Hrq.
    + left. exists tok, e. split; [reflexivity |]. split; [exact Hrq |].
      rewrite (forward_unbuildable (body req) tok e Htok Hrq). reflexivity.
    + right. exists tok, rq. split; [reflexivity |]. split; [exact Hrq |].
      rewrite (forward_run E W (body req) tok rq Htok Hrq).
      unfold try_catch, after_mutation. destruct (tbind _ _); reflexivity.
Qed.

(** The two answers [conclude] can give. *)
Lemma conclude_cases (resp : FetchResponse) (data : JSValue) (r : Reply) :
  Final.conclude resp data = inr r ->
  (status r = 400 /\ (resp_ok resp = false \/ has_user_errors data = true))
  \/ (status r = 200 /\ resp_ok resp = true /\ has_user_errors data = false
      /\ exists draft, draftOrder_of data = inr draft /\ nullish draft = false
                       /\ payload r = JObj [("draft_order_id", get_opt draft "id");
                                            ("invoice_url", get_opt draft "invoiceUrl")]).
Proof.
  unfold Final.conclude, has_user_errors.
  destruct (resp_ok resp); cbn [negb orb].
  - destruct (userErrors_of data) as [| | | | | [| x xs] |]; cbn [isArray andb];
      try (intros H; injection H as <-; left; split; [reflexivity | right; reflexivity]);
      destruct (draftOrder_of data) as [e | draft]; try discriminate;
      cbn [tbind]; intros H; right;
      (destruct (nullish draft) eqn:Hdraft; [destruct draft; discriminate |]);
      unfold draft_reply in H; rewrite !(get_get_opt draft _ Hdraft) in H;
      cbn [tbind] in H; injection H as <-; repeat split; eauto.
  - intros H. injection H as <-. left. split; [reflexivity | left; reflexivity].
Qed.

End FinalRuns.

Section FinalRunProperties.
Context {N : JSNumber}.

Lemma after_mutation_inv (W : Host) (rq : FetchRequest) (r : Reply) :
  after_mutation W rq = inr r ->
  exists resp data, fetch W rq = inr resp /\ JSON_parse W (resp_text resp) = inr data
                    /\ Final.conclude resp data = inr r.
Proof.
  unfold after_mutation.
  destruct (fetch W rq) as [e | resp] eqn:Hfetch; [discriminate |]. cbn [tbind].
  destruct (JSON_parse W (resp_text resp)) as [e | data] eqn:Hparse; [discriminate |].
  cbn [tbind]. intros H. exists resp, data. auto.
Qed.

(** X5. Every request is answered with status 200, 400, 401 or 500, and
    the outbound calls are none, the token request alone, or the token
    request followed by the mutation built from the body: never more, and
    never a mutation without the token exchange before it. *)
Theorem X5_four_statuses_and_at_most_two_calls
    (E : Env) (W : Host) (req : Request) :
  (status (fst (Final.create_draft_order E W req)) = 200
   \/ status (fst (Final.create_draft_order E W req)) = 400
   \/ status (fst (Final.create_draft_order E W req)) = 401
   \/ status (fst (Final.create_draft_order E W req)) = 500)
  /\ (snd (Final.create_draft_order E W req) = []
      \/ snd (Final.create_draft_order E W req) = [tokenRequest E]
      \/ exists tok rq,
           fst (Final.getShopifyAccessToken E W) = inr tok
           /\ mutationRequest E tok (body req) = inr rq
           /\ snd (Final.create_draft_order E W req) = [tokenRequest E; rq]).
Proof.
  destruct (rejects_key E req) eqn:Hkey.
  { rewrite (rejected_request E W req Hkey). simpl. auto. }
  destruct (passes_validation (body req)) eqn:Hvalid.
  - destruct (valid_run_cases E W req Hkey Hvalid)
      as [(e & _ & ->) | [(tok & e & _ & _ & ->) | (tok & rq & Htok & Hrq & ->)]].
    + split; [simpl; auto |]. cbn [snd].
      destruct (token_exchange_trace E W) as [-> | ->]; auto.
    + simpl. auto.
    + split; [| right; right; exists tok, rq; auto].
      cbn [fst]. destruct (after_mutation W rq) as [e | r] eqn:Hafter; [simpl; auto |].
      apply after_mutation_inv in Hafter as (resp & data & _ & _ & Hr).
      destruct (conclude_cases resp data r Hr) as [[-> _] | [-> _]]; auto.
  - destruct (nullish (body req)) eqn:Hbody.
    + destruct (undestructurable_request E W req Hkey Hbody) as [e ->]. simpl. auto.
    + destruct (invalid_request E W req Hkey Hbody Hvalid) as [msg ->]. simpl. auto.
Qed.

Lemma calls_need_key_and_valid_body (E : Env) (W : Host) (req : Request) :
  snd (Final.create_draft_order E W req) <> [] ->
  rejects_key E req = false
  /\ passes_validation (body req) = true
  /\ shopify_configured E = true
  /\ exists later, snd (Final.create_draft_order E W req) = tokenRequest E :: later.
Proof.
  intros Hcalls.
  destruct (rejects_key E req) eqn:Hkey.
  { rewrite (rejected_request E W req Hkey) in Hcalls. contradiction. }
  destruct (passes_validation (body req)) eqn:Hvalid.
  2:{ destruct (nullish (body req)) eqn:Hbody.
      - destruct (undestructurable_request E W req Hkey Hbody) as [e He].
        rewrite He in Hcalls. contradiction.
      - destruct (invalid_request E W req Hkey Hbody Hvalid) as [msg He].
        rewrite He in Hcalls. contradiction. }
  destruct (shopify_configured E) eqn:Hcfg.
  2:{ rewrite (valid_request E W req Hkey Hvalid) in Hcalls.
      rewrite (forward_token_failure E W _ _ _ _ _ _ _
                 (token_exchange_unconfigured_run E W Hcfg)) in Hcalls.
      contradiction. }
  split; [reflexivity |]. split; [reflexivity |]. split; [reflexivity |].
  destruct (valid_run_cases E W req Hkey Hvalid)
    as [(e & _ & He) | [(tok & e & _ & _ & He) | (tok & rq & _ & _ & He)]];
    rewrite He; rewrite He in Hcalls; cbn [snd] in *.
  - destruct (token_exchange_trace E W) as [H0 | H1].
    + rewrite H0 in Hcalls. contradiction.
    + rewrite H1. eauto.
  - eauto.
  - eauto.
Qed.

(** X6. The last revision makes an outbound call only for a request that
    carries the configured key and passes validation, with the Shopify
    settings in place; the first call is then the token request. *)
Theorem X6_no_call_without_key_and_valid_body
    (E : Env) (W : Host) (req : Request) :
  snd (Final.create_draft_order E W req) <> [] ->
  rejects_key E req = false
  /\ passes_validation (body req) = true
  /\ shopify_configured E = true
  /\ exists later, snd (Final.create_draft_order E W req) = tokenRequest E :: later.
Proof. apply calls_need_key_and_valid_body. Qed.

(** X7. A 200 answer is given only after the key and the body were
    accepted, the token exchange succeeded and the mutation was answered
    with an OK status, a body that parses, no field-level errors and a
    draft order that is neither [null] nor [undefined]; the reply holds
    that draft order's [id] and [invoiceUrl], whatever they are. *)
Theorem X7_status_200_only_after_an_ok_mutation
    (E : Env) (W : Host) (req : Request) :
  status (fst (Final.create_draft_order E W req)) = 200 ->
  exists tok rq resp data draft,
    rejects_key E req = false
    /\ passes_validation (body req) = true
    /\ fst (Final.getShopifyAccessToken E W) = inr tok
    /\ mutationRequest E tok (body req) = inr rq
    /\ fetch W rq = inr resp /\ resp_ok resp = true
    /\ JSON_parse W (resp_text resp) = inr data
    /\ has_user_errors data = false
    /\ draftOrder_of data = inr draft /\ nullish draft = false
    /\ Final.create_draft_order E W req =
       (mkReply 200 (JObj [("draft_order_id", get_opt draft "id");
                           ("invoice_url", get_opt draft "invoiceUrl")]),
        [tokenRequest E; rq]).
Proof.
  intros Hstatus.
  destruct (rejects_key E req) eqn:Hkey.
  { rewrite (rejected_request E W req Hkey) in Hstatus. discriminate. }
  destruct (passes_validation (body req)) eqn:Hvalid.
  2:{ destruct (nullish (body req)) eqn:Hbody.
      - destruct (undestructurable_request E W req Hkey Hbody) as [e He].
        rewrite He in Hstatus. discriminate.
      - destruct (invalid_request E W req Hkey Hbody Hvalid) as [msg He].
        rewrite He in Hstatus. discriminate. }
  destruct (valid_run_cases E W req Hkey Hvalid)
    as [(e & _ & He) | [(tok & e & _ & _ & He) | (tok & rq & Htok & Hrq & He)]];
    rewrite He in Hstatus; try discriminate.
  cbn [fst] in Hstatus.
  destruct (after_mutation W rq) as [e | r] eqn:Hafter; [discriminate |].
  apply after_mutation_inv in Hafter as (resp & data & Hfetch & Hparse & Hr).
  destruct (conclude_cases resp data r Hr)
    as [[H400 _] | (_ & Hok & Herrs & draft & Hdraft & Hnn & Hpayload)];
    [congruence |].
  exists tok, rq, resp, data, draft.
  repeat (split; [first [reflexivity | assumption] |]).
  rewrite He. destruct r as [st pl]. simpl in *. subst. reflexivity.
Qed.

Lemma ToString_primitive (v : JSValue) :
  primitive v = true -> exists s, ToString v = inr s.
Proof. destruct v as [| | [|] | | | |]; simpl; try discriminate; eauto. Qed.

Lemma lineItem_plain (it : JSValue) :
  plain_item it = true -> exists li, lineItem it = inr li.
Proof.
  unfold plain_item. intros H. apply andb_prop in H as [Hit Hprice].
  apply negb_true_iff in Hit.
  destruct (ToString_primitive _ Hprice) as [s Hs].
  unfold lineItem. rewrite !(get_get_opt it _ Hit). cbn [tbind]. rewrite Hs.
  cbn [tbind]. eauto.
Qed.

Lemma map_throwing_total {A B} (f : A -> Throws B) (ok : A -> bool) (l : list A) :
  (forall x, ok x = true -> exists y, f x = inr y) ->
  forallb ok l = true -> exists l', map_throwing f l = inr l' /\ length l' = length l.
Proof.
  intros Hf. induction l as [| x l IH]; simpl; intros H.
  - exists []. auto.
  - apply andb_prop in H as [Hx Hl]. destruct (Hf x Hx) as [y Hy].
    destruct (IH Hl) as (ys & Hys & Hlen). rewrite Hy, Hys. cbn [tbind].
    exists (y :: ys). simpl. auto.
Qed.

(** X8. A request that carries the key and passes validation, whose items
    are all neither [null] nor [undefined] and have a primitive price,
    reaches the upstream once the token exchange has returned a primitive
    token: the mutation is a POST to the GraphQL endpoint of the
    configured API version, carries the token in
    [X-Shopify-Access-Token], and forwards as many items as the body
    has. *)
Theorem X8_plain_request_reaches_the_upstream
    (E : Env) (W : Host) (req : Request) (k : string) (tok : JSValue) :
  INBOUND_API_KEY E = Some k -> k <> "" -> header req "X-Api-Key" = Some k ->
  passes_validation (body req) = true ->
  forallb plain_item (elements (items_of (body req))) = true ->
  fst (Final.getShopifyAccessToken E W) = inr tok ->
  primitive tok = true ->
  exists rq t,
    mutationRequest E tok (body req) = inr rq
    /\ snd (Final.create_draft_order E W req) = [tokenRequest E; rq]
    /\ ToString tok = inr t
    /\ fr_method rq = "POST"
    /\ fr_url rq = "https://" +:+ interpolate (SHOPIFY_SHOP_DOMAIN E) +:+ "/admin/api/"
                   +:+ SHOPIFY_API_VERSION E +:+ "/graphql.json"
    /\ fr_headers rq = [("Content-Type", "application/json");
                        ("X-Shopify-Access-Token", t)]
    /\ length (forwarded_items rq) = length (elements (items_of (body req))).
Proof.
  intros HE Hk Hkey Hvalid Hitems Htok Hprim.
  destruct (map_throwing_total lineItem plain_item _ lineItem_plain Hitems)
    as (mapped & Hmapped & Hlen).
  destruct (ToString_primitive tok Hprim) as [t Ht].
  pose proof Hvalid as Hobjects. unfold passes_validation in Hobjects.
  apply andb_prop in Hobjects as [Hobjects _].
  apply andb_prop in Hobjects as [Hemail Haddr].
  apply truthy_get_opt_object in Hemail as [cp Hcp].
  apply truthy_get_opt_object in Haddr as [sp Hsp].
  assert (Hrq : exists rq, mutationRequest E tok (body req) = inr rq
                           /\ fr_method rq = "POST"
                           /\ fr_url rq = "https://" +:+ interpolate (SHOPIFY_SHOP_DOMAIN E)
                                          +:+ "/admin/api/" +:+ SHOPIFY_API_VERSION E
                                          +:+ "/graphql.json"
                           /\ fr_headers rq = [("Content-Type", "application/json");
                                               ("X-Shopify-Access-Token", t)]
                           /\ forwarded_items rq = mapped).
  { unfold mutationRequest, lineItems. rewrite Hmapped, Hcp, Hsp. cbn [tbind].
    rewrite variables_of_objects. cbn [tbind]. unfold draftOrderRequest.
    rewrite Ht. cbn [tbind]. eexists. split; [reflexivity |].
    repeat split; reflexivity. }
  destruct Hrq as (rq & Hrq & Hmethod & Hurl & Hheaders & Hforwarded).
  exists rq, t.
  split; [exact Hrq |].
  split; [exact (handler_calls E W req k tok rq HE Hk Hkey Hvalid Htok Hrq) |].
  repeat (split; [assumption |]). rewrite Hforwarded. exact Hlen.
Qed.

End FinalRunProperties.

(** ** The key of the third revision *)

Lemma toLowerCase_cons (c : ascii) (s : string) :
  toLowerCase (String c s) = String (fold_case c) (toLowerCase s).
Proof. reflexivity. Qed.

(** A word that equals the pattern up to case is matched, and what follows
    it is returned. *)
Lemma match_ignoring_case_word (pat word rest : string) :
  toLowerCase word = toLowerCase pat ->
  match_ignoring_case pat (word +:+ rest) = Some rest.
Proof.
  revert word. induction pat as [| p pat IH]; intros [| c word] H;
    try discriminate.
  - destruct rest; reflexivity.
  - rewrite !toLowerCase_cons in H. injection H as Hc Hword.
    change (String c word +:+ rest) with (String c (word +:+ rest)).
    cbn [match_ignoring_case].
    rewrite bool_decide_eq_true_2 by congruence. apply IH. exact Hword.
Qed.

Lemma drop_white_space_run (w s : string) :
  all_white_space w = true -> drop_white_space (w +:+ s) = drop_white_space s.
Proof.
  induction w as [| c w IH]; [reflexivity |]. cbn [all_white_space]. intros H.
  apply andb_prop in H as [Hc Hw].
  change (String c w +:+ s) with (String c (w +:+ s)).
  cbn [drop_white_space]. rewrite Hc. auto.
Qed.

Lemma trimEnd_white_space (w : string) : all_white_space w = true -> trimEnd w = "".
Proof.
  induction w as [| c w IH]; [reflexivity |]. cbn [all_white_space]. intros H.
  apply andb_prop in H as [Hc Hw]. cbn [trimEnd]. rewrite (IH Hw), Hc. reflexivity.
Qed.

Lemma trimEnd_run (s w : string) :
  all_white_space w = true -> trimEnd (s +:+ w) = trimEnd s.
Proof.
  intros Hw. induction s as [| c s IH]; [exact (trimEnd_white_space w Hw) |].
  change (String c s +:+ w) with (String c (s +:+ w)).
  cbn [trimEnd]. rewrite IH. reflexivity.
Qed.

(** White space after a trimmed word is trimmed away. *)
Lemma trim_run (k w : string) :
  trim k = k -> all_white_space w = true -> trim (k +:+ w) = k.
Proof.
  intros Htrim Hw. pose proof (trimmed_start k Htrim) as Hstart.
  unfold trim in *. rewrite Hstart in Htrim.
  destruct k as [| c k].
  - change ("" +:+ w) with w. rewrite <- (append_empty w) at 1.
    rewrite drop_white_space_run by exact Hw. reflexivity.
  - change (String c k +:+ w) with (String c (k +:+ w)).
    cbn [drop_white_space] in *.
    destruct (is_white_space c) eqn:Hc.
    + exfalso. pose proof (drop_white_space_length k) as Hlen.
      rewrite Hstart in Hlen. simpl in Hlen. lia.
    + change (String c (k +:+ w)) with (String c k +:+ w).
      rewrite trimEnd_run by exact Hw. exact Htrim.
Qed.

Lemma trim_drop_white_space (s : string) : trim (drop_white_space s) = trim s.
Proof.
  unfold trim. f_equal. induction s as [| c s IH]; [reflexivity |].
  cbn [drop_white_space]. destruct (is_white_space c) eqn:Hc; [exact IH |].
  cbn [drop_white_space]. rewrite Hc. reflexivity.
Qed.

Lemma strip_bearer_scheme (word w rest : string) :
  toLowerCase word = "bearer" -> all_white_space w = true -> w <> "" ->
  strip_bearer (word +:+ w +:+ rest) = drop_white_space rest.
Proof.
  intros Hword Hw Hne. unfold strip_bearer.
  rewrite (match_ignoring_case_word "Bearer" word (w +:+ rest) Hword).
  destruct w as [| c w]; [congruence |].
  change (String c w +:+ rest) with (String c (w +:+ rest)).
  cbn [all_white_space] in Hw. apply andb_prop in Hw as [Hc Hw].
  rewrite Hc. apply drop_white_space_run. exact Hw.
Qed.

Section ThirdKey.
Context {N : JSNumber}.

Lemma rev3_rejected_request (E : Env) (W : Host) (req : Request) :
  Rev3.requireApiKey E req = (false, Some (error_reply 401 "Unauthorized")) ->
  Rev3.create_draft_order E W req = (Some (error_reply 401 "Unauthorized"), []).
Proof. intros H. unfold Rev3.create_draft_order. rewrite H. reflexivity. Qed.

(** [requireApiKey] answers true exactly for the configured, non-empty key. *)
Lemma requireApiKey_cases (E : Env) (req : Request) :
  (INBOUND_API_KEY E = Some (Rev3.getProvidedKey req)
   /\ Rev3.getProvidedKey req <> ""
   /\ Rev3.requireApiKey E req = (true, None))
  \/ ((INBOUND_API_KEY E <> Some (Rev3.getProvidedKey req)
       \/ Rev3.getProvidedKey req = "")
      /\ Rev3.requireApiKey E req = (false, Some (error_reply 401 "Unauthorized"))).
Proof.
  unfold Rev3.requireApiKey.
  destruct (decide (Rev3.getProvidedKey req = "")) as [Hempty | Hkey].
  { right. split; [right; exact Hempty |]. rewrite Hempty. simpl.
    rewrite orb_true_r. reflexivity. }
  destruct (decide (INBOUND_API_KEY E = Some (Rev3.getProvidedKey req))) as [HE | HE].
  - left. split; [exact HE |]. split; [exact Hkey |].
    rewrite HE. simpl. rewrite (bool_decide_eq_false_2 _ Hkey).
    rewrite bool_decide_eq_true_2 by reflexivity. reflexivity.
  - right. split; [left; exact HE |].
    rewrite (bool_decide_eq_false_2 (Some (Rev3.getProvidedKey req) = INBOUND_API_KEY E))
      by congruence.
    rewrite !orb_true_r. reflexivity.
Qed.

(** Past [requireApiKey] the handler always sends a reply. *)
Lemma rev3_accepted_replies (E : Env) (W : Host) (req : Request) :
  Rev3.requireApiKey E req = (true, None) ->
  exists r, fst (Rev3.create_draft_order E W req) = Some r
            /\ (status r = 200 \/ status r = 400 \/ status r = 500).
Proof.
  intros Hauth. rewrite (rev3_accepted_request E W req Hauth).
  match goal with |- context [try_catch ?m _] => destruct m as [[e | o] calls] eqn:Hm end;
    cbn [try_catch fst].
  - eexists. split; [reflexivity |]. auto.
  - apply (f_equal fst) in Hm. cbn [fst] in Hm.
    repeat (apply bind_inr_inv in Hm as (? & _ & Hm)).
    repeat match type of Hm with
           | fst (if ?c then _ else _) = _ => destruct c
           end;
      try (unfold ret in Hm; cbn [fst] in Hm; injection Hm as <-;
           eexists; split; [reflexivity |]; simpl; auto).
    apply bind_inr_inv in Hm as (reply & Hf & Hm).
    unfold ret in Hm. cbn [fst] in Hm. injection Hm as <-.
    exists reply. split; [reflexivity |].
    destruct (rev3_forward_status _ _ _ _ _ _ _ _ Hf) as [-> | ->]; auto.
Qed.

(** X9. In the third revision [requireApiKey] answers true exactly when
    the derived key is non-empty and equals the configured secret;
    otherwise the request is answered 401 without any call. Either way the
    handler sends a reply, with status 200, 400, 401 or 500. *)
Theorem X9_gate_of_the_third_revision_always_answers
    (E : Env) (W : Host) (req : Request) :
  (Rev3.requireApiKey E req = (true, None)
   <-> INBOUND_API_KEY E = Some (Rev3.getProvidedKey req)
       /\ Rev3.getProvidedKey req <> "")
  /\ (Rev3.requireApiKey E req <> (true, None) ->
      Rev3.create_draft_order E W req = (Some (error_reply 401 "Unauthorized"), []))
  /\ exists r, fst (Rev3.create_draft_order E W req) = Some r
               /\ (status r = 200 \/ status r = 400 \/ status r = 401 \/ status r = 500).
Proof.
  destruct (requireApiKey_cases E req) as [(HE & Hk & Hacc) | (Hno & Hrej)].
  - split; [split; auto |]. split; [congruence |].
    destruct (rev3_accepted_replies E W req Hacc) as (r & Hr & Hst).
    exists r. split; [exact Hr |]. destruct Hst as [? | [? | ?]]; auto.
  - split.
    { split.
      - rewrite Hrej. discriminate.
      - intros [HE Hk]. destruct Hno; contradiction. }
    split; [intros _; exact (rev3_rejected_request E W req Hrej) |].
    rewrite (rev3_rejected_request E W req Hrej).
    eexists. split; [reflexivity |]. simpl. auto.
Qed.

(** X10. In the third revision the scheme word [Bearer] is accepted in any
    letter case, followed by any non-empty run of white space, and white
    space after the token is dropped: the derived key is the token, and a
    token equal to the configured secret is accepted. *)
Theorem X10_bearer_scheme_in_any_case_and_spacing
    (E : Env) (W : Host) (req : Request) (k word w1 w2 : string) :
  INBOUND_API_KEY E = Some k -> k <> "" -> trim k = k ->
  is_set (header req "X-Api-Key") = false ->
  toLowerCase word = "bearer" ->
  all_white_space w1 = true -> w1 <> "" -> all_white_space w2 = true ->
  header req "Authorization" = Some (word +:+ w1 +:+ k +:+ w2) ->
  Rev3.getProvidedKey req = k
  /\ Rev3.requireApiKey E req = (true, None)
  /\ forall r, fst (Rev3.create_draft_order E W req) = Some r -> status r <> 401.
Proof.
  intros HE Hk Htrim Hnone Hword Hw1 Hne Hw2 Hauth.
  assert (Hkey : Rev3.getProvidedKey req = k).
  { unfold Rev3.getProvidedKey. unfold Rev3.or_else at 1. rewrite Hnone.
    unfold Rev3.or_else at 2. rewrite Hauth.
    assert (Hset : is_set (Some (word +:+ w1 +:+ k +:+ w2)) = true).
    { destruct word; [discriminate | reflexivity]. }
    rewrite Hset. cbn [interpolate].
    rewrite (strip_bearer_scheme word w1 (k +:+ w2) Hword Hw1 Hne).
    rewrite trim_drop_white_space, (trim_run k w2 Htrim Hw2).
    unfold Rev3.or_else. simpl. rewrite (bool_decide_eq_false_2 _ Hk). reflexivity. }
  pose proof (provided_key_accepted E req k HE Hk Hkey) as Hpass.
  split; [exact Hkey |]. split; [exact Hpass |].
  intros r. exact (rev3_accepted_not_401 E W req r Hpass).
Qed.

(** X11. In the third revision an [Authorization] header that holds the
    bare secret, without any scheme word, is accepted as well (the
    pattern that strips [Bearer] leaves other values untouched). *)
Theorem X11_secret_without_scheme_is_accepted
    (E : Env) (W : Host) (req : Request) (k : string) :
  INBOUND_API_KEY E = Some k -> k <> "" -> trim k = k -> strip_bearer k = k ->
  is_set (header req "X-Api-Key") = false ->
  header req "Authorization" = Some k ->
  Rev3.getProvidedKey req = k
  /\ Rev3.requireApiKey E req = (true, None)
  /\ forall r, fst (Rev3.create_draft_order E W req) = Some r -> status r <> 401.
Proof.
  intros HE Hk Htrim Hplain Hnone Hauth.
  assert (Hkey : Rev3.getProvidedKey req = k).
  { unfold Rev3.getProvidedKey. unfold Rev3.or_else at 1. rewrite Hnone.
    unfold Rev3.or_else at 2. rewrite Hauth. simpl.
    rewrite (bool_decide_eq_false_2 _ Hk). simpl. rewrite Hplain, Htrim.
    unfold Rev3.or_else. simpl. rewrite (bool_decide_eq_false_2 _ Hk). reflexivity. }
  pose proof (provided_key_accepted E req k HE Hk Hkey) as Hpass.
  split; [exact Hkey |]. split; [exact Hpass |].
  intros r. exact (rev3_accepted_not_401 E W req r Hpass).
Qed.

(** X12. In the third revision a non-empty [X-Api-Key] that is not the
    configured secret is answered 401 without any call, also when the
    [Authorization] header holds the right bearer token. *)
Theorem X12_wrong_api_key_header_hides_a_right_bearer_token
    (E : Env) (W : Host) (req : Request) (k : string) :
  header req "X-Api-Key" = Some k -> k <> "" -> INBOUND_API_KEY E <> Some k ->
  Rev3.create_draft_order E W req = (Some (error_reply 401 "Unauthorized"), []).
Proof.
  intros Hkey Hk HE. pose proof (api_key_header_read req k Hkey Hk) as Hread.
  destruct (requireApiKey_cases E req) as [(HE' & _ & _) | (_ & Hrej)].
  - rewrite Hread in HE'. contradiction.
  - exact (rev3_rejected_request E W req Hrej).
Qed.

End ThirdKey.

(** ** The revisions side by side *)

Section SideBySide.
Context {N : JSNumber} (E : Env) (W : Host).

Lemma early_conclude_agrees (resp : FetchResponse) (data : JSValue) :
  array_or_absent (userErrors_of data) = true ->
  match Early.conclude resp data, Final.conclude resp data with
  | inr r1, inr r2 => status r1 = status r2
  | inl _, inl _ => True
  | _, _ => False
  end.
Proof.
  unfold Early.conclude, Final.conclude. intros Hwf.
  destruct (resp_ok resp); cbn [negb orb]; [| reflexivity].
  destruct (userErrors_of data) as [| | | | | [| x xs] |]; try discriminate;
    try reflexivity; simpl;
    destruct (tbind _ _); auto.
Qed.

Lemma early_forward_agrees (token : Eff JSValue)
      (customer shipping_address items tags note : JSValue) :
  same_token token (Final.getShopifyAccessToken E W) -> graphql_host W ->
  agree (Early.forward E W token customer shipping_address items tags note)
        (Final.forward E W customer shipping_address items tags note).
Proof.
  intros [Hcalls Hresult] Hhost. unfold Early.forward, Final.forward, agree.
  destruct token as [[e1 | tok1] calls1];
    destruct (Final.getShopifyAccessToken E W) as [[e2 | tok2] calls2];
    cbn [fst snd] in *; subst; try contradiction.
  - split; [reflexivity | exact I].
  - rewrite !bind_returned.
    destruct (lineItems items) as [e | mapped]; [split; [reflexivity | exact I] |].
    rewrite !bind_lift_inr.
    destruct (variables customer shipping_address note tags mapped) as [e | vars];
      [split; [reflexivity | exact I] |].
    rewrite !bind_lift_inr.
    destruct (draftOrderRequest E tok2 vars) as [e | rq];
      [split; [reflexivity | exact I] |].
    rewrite !bind_lift_inr. unfold await_fetch.
    destruct (fetch W rq) as [e | resp] eqn:Hfetch; [split; [reflexivity | exact I] |].
    rewrite !bind_returned.
    destruct (JSON_parse W (resp_text resp)) as [e | data] eqn:Hparse;
      [split; [reflexivity | exact I] |].
    rewrite !bind_lift_inr. unfold lift. cbn [fst snd].
    split; [reflexivity |].
    exact (early_conclude_agrees resp data (Hhost rq resp data Hfetch Hparse)).
Qed.

Lemma rev2_token_configured :
  shopify_configured E = true ->
  Rev2.getShopifyAccessToken E W = Final.getShopifyAccessToken E W.
Proof.
  unfold shopify_configured, Rev2.getShopifyAccessToken, Final.getShopifyAccessToken.
  intros Hcfg.
  apply andb_prop in Hcfg as [Hcfg Hsecret]. apply andb_prop in Hcfg as [Hdom Hid].
  rewrite Hdom, Hid, Hsecret. reflexivity.
Qed.

Lemma rev2_token_trace : snd (Rev2.getShopifyAccessToken E W) = [tokenRequest E].
Proof.
  unfold Rev2.getShopifyAccessToken, await_fetch.
  destruct (fetch W (tokenRequest E)) as [e | resp]; [reflexivity |].
  rewrite bind_returned. cbn [snd].
  destruct (parse_if_json W (contentType_of resp) (resp_text resp)) as [e | data];
    [reflexivity |].
  rewrite bind_lift_inr.
  destruct (resp_ok resp); cbn [negb]; [| reflexivity].
  destruct (truthy (get_opt data "access_token")); reflexivity.
Qed.

Lemma rev3_token_agrees :
  same_token (Rev3.getShopifyAccessToken E W) (Final.getShopifyAccessToken E W).
Proof.
  unfold same_token, Rev3.getShopifyAccessToken, Final.getShopifyAccessToken.
  destruct (negb (is_set (SHOPIFY_SHOP_DOMAIN E)) || _ || _);
    [split; [reflexivity | exact I] |].
  unfold await_fetch.
  destruct (fetch W (tokenRequest E)) as [e | resp]; [split; [reflexivity | exact I] |].
  rewrite !bind_returned.
  destruct (parse_if_json W (contentType_of resp) (resp_text resp)) as [e | data];
    [split; [reflexivity | exact I] |].
  rewrite !bind_lift_inr.
  destruct (resp_ok resp); cbn [negb]; [| split; [reflexivity | exact I]].
  destruct (truthy (get_opt data "access_token")); cbn [negb];
    [| split; [reflexivity | exact I]].
  unfold lift. cbn [fst snd]. split; [reflexivity |].
  destruct (get data "access_token"); auto.
Qed.

(** The handler of the first two revisions, case by case. *)
Lemma early_rejected (token : Eff JSValue) (req : Request) :
  rejects_key E req = true ->
  Early.create_draft_order E W token req = (error_reply 401 "Unauthorized", []).
Proof.
  unfold rejects_key, Early.create_draft_order. intros ->. reflexivity.
Qed.

Lemma early_undestructurable (token : Eff JSValue) (req : Request) :
  rejects_key E req = false -> nullish (body req) = true ->
  exists e, Early.create_draft_order E W token req = (server_error e, []).
Proof.
  intros Hkey Hbody. unfold Early.create_draft_order.
  fold (rejects_key E req). rewrite Hkey.
  destruct (body req); try discriminate; simpl; eauto.
Qed.

Lemma early_invalid (token : Eff JSValue) (req : Request) :
  rejects_key E req = false -> nullish (body req) = false ->
  passes_validation (body req) = false ->
  Early.create_draft_order E W token req = (error_reply 400 "Missing required fields", []).
Proof.
  intros Hkey Hbody Hinvalid. unfold Early.create_draft_order.
  fold (rejects_key E req). rewrite Hkey.
  rewrite !(destructure_get_opt _ _ _ Hbody). rewrite !bind_lift_inr.
  unfold passes_validation, customer_email, address1_of, items_of in Hinvalid.
  destruct (truthy (get_opt (get_opt (body req) "customer") "email")); [| reflexivity].
  destruct (truthy (get_opt (get_opt (body req) "shipping_address") "address1"));
    [| reflexivity].
  destruct (get_opt (body req) "items") as [| | | | | [| it its] |];
    try reflexivity. discriminate.
Qed.

Lemma early_valid (token : Eff JSValue) (req : Request) :
  rejects_key E req = false -> passes_validation (body req) = true ->
  Early.create_draft_order E W token req =
  try_catch
    (Early.forward E W token (get_opt (body req) "customer")
                   (get_opt (body req) "shipping_address")
                   (items_of (body req)) (tags_of (body req)) (note_of (body req)))
    server_error.
Proof.
  intros Hkey Hvalid. unfold Early.create_draft_order.
  fold (rejects_key E req). rewrite Hkey.
  assert (Hbody : nullish (body req) = false).
  { unfold passes_validation, customer_email in Hvalid.
    destruct (body req); simpl in *; congruence. }
  rewrite !(destructure_get_opt _ _ _ Hbody). rewrite !bind_lift_inr.
  unfold passes_validation, customer_email, address1_of in Hvalid.
  apply andb_prop in Hvalid as [Hvalid Hitems].
  apply andb_prop in Hvalid as [Hemail Haddr].
  rewrite Hemail, Haddr. unfold items_of in *.
  destruct (get_opt (body req) "items") as [| | | | | [| it its] |];
    try discriminate. reflexivity.
Qed.

Lemma try_catch_agrees (m1 m2 : Eff Reply) :
  agree m1 m2 ->
  status (fst (try_catch m1 server_error)) = status (fst (try_catch m2 server_error))
  /\ snd (try_catch m1 server_error) = snd (try_catch m2 server_error).
Proof.
  intros [Hcalls Hresult].
  destruct m1 as [[e1 | r1] c1]; destruct m2 as [[e2 | r2] c2];
    cbn [fst snd try_catch] in *; try contradiction; auto.
Qed.

(** With a token exchange that behaves as the last revision's, the early
    handler and the last one agree on every request. *)
Lemma early_handler_agrees (token : Eff JSValue) (req : Request) :
  same_token token (Final.getShopifyAccessToken E W) -> graphql_host W ->
  status (fst (Early.create_draft_order E W token req))
  = status (fst (Final.create_draft_order E W req))
  /\ snd (Early.create_draft_order E W token req)
     = snd (Final.create_draft_order E W req).
Proof.
  intros Htoken Hhost.
  destruct (rejects_key E req) eqn:Hkey.
  { rewrite (early_rejected token req Hkey), (rejected_request E W req Hkey). auto. }
  destruct (passes_validation (body req)) eqn:Hvalid.
  - rewrite (early_valid token req Hkey Hvalid), (valid_request E W req Hkey Hvalid).
    apply try_catch_agrees, early_forward_agrees; assumption.
  - destruct (nullish (body req)) eqn:Hbody.
    + destruct (early_undestructurable token req Hkey Hbody) as [e1 ->].
      destruct (undestructurable_request E W req Hkey Hbody) as [e2 ->]. auto.
    + rewrite (early_invalid token req Hkey Hbody Hvalid).
      destruct (invalid_request E W req Hkey Hbody Hvalid) as [msg ->]. auto.
Qed.

End SideBySide.

Section RevisionProperties.
Context {N : JSNumber}.

(** X13. With the Shopify settings in place and an upstream whose
    [userErrors] is an array when present, the second revision and the
    last one answer every request with the same status after the same
    outbound calls. *)
Theorem X13_second_revision_agrees_with_the_last
    (E : Env) (W : Host) (req : Request) :
  shopify_configured E = true -> graphql_host W ->
  status (fst (Rev2.create_draft_order E W req))
  = status (fst (Final.create_draft_order E W req))
  /\ snd (Rev2.create_draft_order E W req) = snd (Final.create_draft_order E W req).
Proof.
  intros Hcfg Hhost. unfold Rev2.create_draft_order.
  apply early_handler_agrees; [| exact Hhost].
  rewrite (rev2_token_configured E W Hcfg). unfold same_token.
  split; [reflexivity |]. destruct (fst _); auto.
Qed.

(** X14. The token exchange of the second revision has no test of the
    settings: it always makes its one call, to a URL that reads
    [https://undefined/...] when the shop domain is unset. With the
    settings in place it is the exchange of the last revision, which
    makes no call without them. *)
Theorem X14_second_revision_always_calls_the_token_endpoint
    (E : Env) (W : Host) :
  snd (Rev2.getShopifyAccessToken E W) = [tokenRequest E]
  /\ (SHOPIFY_SHOP_DOMAIN E = None ->
      fr_url (tokenRequest E) = "https://undefined/admin/oauth/access_token")
  /\ (shopify_configured E = true ->
      Rev2.getShopifyAccessToken E W = Final.getShopifyAccessToken E W)
  /\ (shopify_configured E = false -> snd (Final.getShopifyAccessToken E W) = []).
Proof.
  split; [apply rev2_token_trace |].
  split; [intros HE; unfold tokenRequest; rewrite HE; reflexivity |].
  split; [apply rev2_token_configured |].
  intros Hcfg. rewrite (token_exchange_unconfigured_run E W Hcfg). reflexivity.
Qed.

Lemma rev3_undestructurable (E : Env) (W : Host) (req : Request) :
  Rev3.requireApiKey E req = (true, None) -> nullish (body req) = true ->
  exists e, Rev3.create_draft_order E W req = (Some (server_error e), []).
Proof.
  intros Hauth Hbody. rewrite (rev3_accepted_request E W req Hauth).
  destruct (body req); try discriminate; simpl; eauto.
Qed.

Lemma rev3_invalid (E : Env) (W : Host) (req : Request) :
  Rev3.requireApiKey E req = (true, None) -> nullish (body req) = false ->
  passes_validation (body req) = false ->
  exists msg, Rev3.create_draft_order E W req = (Some (error_reply 400 msg), []).
Proof.
  intros Hauth Hbody Hinvalid. rewrite (rev3_accepted_request E W req Hauth).
  rewrite !(destructure_get_opt _ _ _ Hbody). rewrite !bind_lift_inr.
  unfold passes_validation, customer_email, address1_of, items_of in Hinvalid.
  destruct (truthy (get_opt (get_opt (body req) "customer") "email")); [| simpl; eauto].
  destruct (truthy (get_opt (get_opt (body req) "shipping_address") "address1"));
    [| simpl; eauto].
  destruct (get_opt (body req) "items") as [| | | | | [| it its] |];
    simpl; eauto. discriminate.
Qed.

Lemma rev3_valid (E : Env) (W : Host) (req : Request) :
  Rev3.requireApiKey E req = (true, None) -> passes_validation (body req) = true ->
  Rev3.create_draft_order E W req =
  try_catch
    (do! reply := Early.forward E W (Rev3.getShopifyAccessToken E W)
                    (get_opt (body req) "customer")
                    (get_opt (body req) "shipping_address")
                    (items_of (body req)) (tags_of (body req)) (note_of (body req)) in
     ret (Some reply))
    (fun e => Some (server_error e)).
Proof.
  intros Hauth Hvalid. rewrite (rev3_accepted_request E W req Hauth).
  assert (Hbody : nullish (body req) = false).
  { unfold passes_validation, customer_email in Hvalid.
    destruct (body req); simpl in *; congruence. }
  rewrite !(destructure_get_opt _ _ _ Hbody). rewrite !bind_lift_inr.
  unfold passes_validation, customer_email, address1_of in Hvalid.
  apply andb_prop in Hvalid as [Hvalid Hitems].
  apply andb_prop in Hvalid as [Hemail Haddr].
  rewrite Hemail, Haddr. unfold items_of in *.
  destruct (get_opt (body req) "items") as [| | | | | [| it its] |];
    try discriminate. reflexivity.
Qed.

Lemma provided_key_empty (req : Request) :
  is_set (header req "X-Api-Key") = false ->
  is_set (header req "Authorization") = false ->
  Rev3.getProvidedKey req = "".
Proof.
  intros Hkey Hauth. unfold Rev3.getProvidedKey, Rev3.or_else.
  rewrite Hkey, Hauth. reflexivity.
Qed.

(** When the request has a usable [X-Api-Key], or no [Authorization] at
    all, the two gates decide alike. *)
Lemma gates_agree (E : Env) (req : Request) :
  is_set (header req "X-Api-Key") = true \/ is_set (header req "Authorization") = false ->
  (rejects_key E req = false /\ Rev3.requireApiKey E req = (true, None))
  \/ (rejects_key E req = true
      /\ Rev3.requireApiKey E req = (false, Some (error_reply 401 "Unauthorized"))).
Proof.
  intros Hheaders.
  destruct (is_set (header req "X-Api-Key")) eqn:Hset.
  - destruct (header req "X-Api-Key") as [x |] eqn:Hx; [| discriminate].
    assert (Hne : x <> "") by (intros ->; discriminate).
    pose proof (api_key_header_read req x Hx Hne) as Hread.
    destruct (requireApiKey_cases E req) as [(HE & Hk & Hacc) | (Hno & Hrej)].
    + left. split; [| exact Hacc]. unfold rejects_key. rewrite Hx, HE, Hread. simpl.
      rewrite (bool_decide_eq_false_2 _ Hne).
      rewrite bool_decide_eq_true_2 by reflexivity. reflexivity.
    + right. split; [| exact Hrej]. unfold rejects_key. rewrite Hx.
      rewrite Hread in Hno. destruct Hno as [HE | Hempty]; [| contradiction].
      rewrite (bool_decide_eq_false_2 (Some x = INBOUND_API_KEY E)) by congruence.
      apply orb_true_r.
  - destruct Hheaders as [? | Hauth]; [discriminate |].
    pose proof (provided_key_empty req Hset Hauth) as Hempty.
    right. split.
    + unfold rejects_key.
      destruct (INBOUND_API_KEY E) as [s |] eqn:Hs; [| reflexivity]. simpl.
      destruct (bool_decide (s = "")) eqn:Hse; [reflexivity |]. simpl.
      apply bool_decide_eq_false in Hse.
      apply negb_true_iff, bool_decide_eq_false_2. intros Hx.
      rewrite Hx in Hset. simpl in Hset.
      rewrite (bool_decide_eq_false_2 _ Hse) in Hset. discriminate.
    + destruct (requireApiKey_cases E req) as [(_ & Hk & _) | (_ & Hrej)];
        [contradiction | exact Hrej].
Qed.

(** X15. For a request with a non-empty [X-Api-Key], or without an
    [Authorization] header, and an upstream whose [userErrors] is an array
    when present, the third revision sends a reply with the status the
    last revision answers, after the same outbound calls. *)
Theorem X15_third_revision_agrees_with_the_last
    (E : Env) (W : Host) (req : Request) :
  is_set (header req "X-Api-Key") = true \/ is_set (header req "Authorization") = false ->
  graphql_host W ->
  exists r, fst (Rev3.create_draft_order E W req) = Some r
            /\ status r = status (fst (Final.create_draft_order E W req))
            /\ snd (Rev3.create_draft_order E W req)
               = snd (Final.create_draft_order E W req).
Proof.
  intros Hheaders Hhost.
  destruct (gates_agree E req Hheaders) as [[Hkey Hacc] | [Hkey Hrej]].
  2:{ rewrite (rev3_rejected_request E W req Hrej), (rejected_request E W req Hkey).
      eexists. split; [reflexivity |]. auto. }
  destruct (passes_validation (body req)) eqn:Hvalid.
  - rewrite (rev3_valid E W req Hacc Hvalid), (valid_request E W req Hkey Hvalid).
    pose proof (early_forward_agrees E W (Rev3.getShopifyAccessToken E W)
                  (get_opt (body req) "customer")
                  (get_opt (body req) "shipping_address")
                  (items_of (body req)) (tags_of (body req)) (note_of (body req))
                  (rev3_token_agrees E W) Hhost) as [Hcalls Hresult].
    destruct (Early.forward _ _ _ _ _ _ _ _) as [[e1 | r1] c1];
      destruct (Final.forward _ _ _ _ _ _ _) as [[e2 | r2] c2];
      cbn [fst snd] in *; try contradiction; subst.
    + eexists. split; [reflexivity |]. auto.
    + exists r1. unfold bind, ret, try_catch. cbn [fst snd].
      rewrite app_nil_r. auto.
  - destruct (nullish (body req)) eqn:Hbody.
    + destruct (rev3_undestructurable E W req Hacc Hbody) as [e1 ->].
      destruct (undestructurable_request E W req Hkey Hbody) as [e2 ->].
      eexists. split; [reflexivity |]. auto.
    + destruct (rev3_invalid E W req Hacc Hbody Hvalid) as [m1 ->].
      destruct (invalid_request E W req Hkey Hbody Hvalid) as [m2 ->].
      eexists. split; [reflexivity |]. auto.
Qed.

(** X16. The token exchange of the first revision parses every answer as
    JSON: a body that does not parse makes it throw the parser's error
    whatever the status and content type are, and the relay answers 500
    with that error; a parsed answer with a status that is not OK, or
    without a truthy token, is thrown back as [JSON.stringify] of it. *)
Theorem X16_first_revision_parses_every_token_answer
    (E : Env) (W : Host) (stringify : JSValue -> string) (resp : FetchResponse) :
  fetch W (tokenRequest E) = inr resp ->
  (forall e, JSON_parse W (resp_text resp) = inl e ->
     Rev1.getShopifyAccessToken E W stringify = (inl e, [tokenRequest E])
     /\ forall (req : Request) (k : string),
          INBOUND_API_KEY E = Some k -> k <> "" -> header req "X-Api-Key" = Some k ->
          passes_validation (body req) = true ->
          Rev1.create_draft_order E W stringify req = (server_error e, [tokenRequest E]))
  /\ (forall data, JSON_parse W (resp_text resp) = inr data ->
        resp_ok resp = false \/ truthy (get_opt data "access_token") = false ->
        nullish data = false ->
        Rev1.getShopifyAccessToken E W stringify
        = (inl (Error (stringify data)), [tokenRequest E])).
Proof.
  intros Hfetch. split.
  - intros e Hparse.
    assert (Hrun : Rev1.getShopifyAccessToken E W stringify = (inl e, [tokenRequest E])).
    { unfold Rev1.getShopifyAccessToken, await_fetch. rewrite Hfetch, bind_returned.
      rewrite Hparse. reflexivity. }
    split; [exact Hrun |].
    intros req k HE Hk Hkey Hvalid. unfold Rev1.create_draft_order.
    rewrite (early_valid E W _ req (correct_key_accepted E req k HE Hk Hkey) Hvalid).
    unfold Early.forward. rewrite Hrun. reflexivity.
  - intros data Hparse Hfailed Hdata.
    unfold Rev1.getShopifyAccessToken, await_fetch. rewrite Hfetch, bind_returned.
    rewrite Hparse, bind_lift_inr.
    destruct (resp_ok resp); cbn [negb]; [| reflexivity].
    destruct Hfailed as [Hok | Hfalsy]; [discriminate |].
    rewrite (get_get_opt data _ Hdata), bind_lift_inr, Hfalsy. reflexivity.
Qed.

(** ** The application *)

(** X18. The application of the last revision makes outbound calls only
    for a request that the body parser hands on, that is not OPTIONS, is
    taken by the POST route of [/create-draft-order] and by neither
    liveness route, carries the configured key and passes validation; its
    outcome is then the handler's reply with the CORS headers set. *)
Theorem X18_application_calls_out_only_for_an_accepted_order
    (P : BodyParser) (R : Router) (E : Env) (W : Host) (inb : Inbound) :
  outbound (app_final P R E W inb) <> [] ->
  P inb = None
  /\ method inb <> "OPTIONS"
  /\ R "get" "/health" inb = false /\ R "get" "/ping" inb = false
  /\ R "post" "/create-draft-order" inb = true
  /\ rejects_key E (request inb) = false
  /\ passes_validation (body (request inb)) = true
  /\ app_final P R E W inb =
     mkOutcome [("Access-Control-Allow-Origin", "*");
                ("Access-Control-Allow-Headers", "Content-Type, X-Api-Key");
                ("Access-Control-Allow-Methods", "GET, POST, OPTIONS")]
               (Json (fst (Final.create_draft_order E W (request inb))))
               (snd (Final.create_draft_order E W (request inb))).
Proof.
  unfold app_final, parsed_by, through, cors, routes_with_ping, answered.
  destruct (P inb) as [code |]; [simpl; congruence |].
  destruct (bool_decide (method inb = "OPTIONS")) eqn:Hm; [simpl; congruence |].
  apply bool_decide_eq_false in Hm.
  destruct (R "get" "/health" inb); [simpl; congruence |].
  destruct (R "get" "/ping" inb); [simpl; congruence |].
  destruct (R "post" "/create-draft-order" inb); [| simpl; congruence].
  cbn [outbound]. intros Hcalls.
  destruct (calls_need_key_and_valid_body E W (request inb) Hcalls)
    as (Hkey & Hvalid & _).
  repeat (split; [first [assumption | reflexivity] |]). reflexivity.
Qed.

End RevisionProperties.

Section BrokenItems.
Context {N : JSNumber}.

Lemma map_throwing_fails {A B} (f : A -> Throws B) (l : list A) (x : A) :
  In x l -> (exists e, f x = inl e) -> exists e, map_throwing f l = inl e.
Proof.
  intros Hin [e He]. induction l as [| y l IH]; [contradiction |].
  cbn [map_throwing]. destruct (f y) as [e' | b] eqn:Hy; [eauto |].
  cbn [tbind]. destruct Hin as [-> | Hin]; [congruence |].
  destruct (IH Hin) as [e' ->]. eauto.
Qed.

(** X19. An item that is [null] or [undefined] is not caught by
    validation: with the key, a valid body otherwise and a token exchange
    that succeeds, the request is answered 500 after the token request,
    and no mutation is sent. *)
Theorem X19_null_item_costs_a_token_exchange
    (E : Env) (W : Host) (req : Request) (k : string) (tok it : JSValue) :
  INBOUND_API_KEY E = Some k -> k <> "" -> header req "X-Api-Key" = Some k ->
  passes_validation (body req) = true ->
  In it (elements (items_of (body req))) -> nullish it = true ->
  fst (Final.getShopifyAccessToken E W) = inr tok ->
  status (fst (Final.create_draft_order E W req)) = 500
  /\ snd (Final.create_draft_order E W req) = [tokenRequest E].
Proof.
  intros HE Hk Hkey Hvalid Hin Hnull Htok.
  assert (Hitem : exists e, lineItem it = inl e)
    by (destruct it; try discriminate; simpl; eauto).
  destruct (map_throwing_fails lineItem _ it Hin Hitem) as [e Hmapped].
  assert (Hrq : mutationRequest E tok (body req) = inl e)
    by (unfold mutationRequest, lineItems; rewrite Hmapped; reflexivity).
  rewrite (valid_request E W req (correct_key_accepted E req k HE Hk Hkey) Hvalid).
  rewrite (forward_unbuildable E W (body req) tok e Htok Hrq). auto.
Qed.

End BrokenItems.

(** ** Sample runs of the further properties *)

Lemma sample_graphql_host (token mutation : FetchResponse) :
  graphql_host (Sample.host token mutation).
Proof.
  intros rq resp data _. cbn [JSON_parse Sample.host]. unfold Sample.parse.
  repeat case_bool_decide; intros Hdata; try discriminate;
    injection Hdata as <-; reflexivity.
Qed.

Lemma X1_sample_run :
  Final.getShopifyAccessToken
    (mkEnv (Some "s3cret") (Some "shop.myshopify.com") None (Some "csecret") None)
    (Sample.host Sample.token_ok (Sample.json 200 Sample.created_text))
  = (inl (Error "Missing Shopify environment variables. Check SHOPIFY_SHOP_DOMAIN, SHOPIFY_CLIENT_ID, SHOPIFY_CLIENT_SECRET."),
     []).
Proof.
  apply (X1_unconfigured_exchange_makes_no_call
           (mkEnv (Some "s3cret") (Some "shop.myshopify.com") None (Some "csecret") None)
           (Sample.host Sample.token_ok (Sample.json 200 Sample.created_text))).
  reflexivity.
Defined.

Lemma X3_sample_run :
  Final.getShopifyAccessToken Sample.env
    (Sample.host (Sample.json 500 "<html>Internal Server Error</html>") Sample.token_ok)
  = (inl (mkExn "SyntaxError" "Unexpected token < in JSON at position 0"),
     [tokenRequest Sample.env]).
Proof.
  apply (X3_malformed_json_answer_throws_the_parse_error
           Sample.env
           (Sample.host (Sample.json 500 "<html>Internal Server Error</html>")
                        Sample.token_ok)
           (Sample.json 500 "<html>Internal Server Error</html>"));
    vm_compute; reflexivity.
Defined.

Lemma X4_sample_run :
  Final.getShopifyAccessToken Sample.env
    (Sample.host (Sample.html 503 "<html>Service Unavailable</html>") Sample.token_ok)
  = (inl (Error (token_failure_message
                   (Sample.html 503 "<html>Service Unavailable</html>"))),
     [tokenRequest Sample.env]).
Proof.
  apply (X4_failed_exchange_reports_a_bounded_preview
           Sample.env
           (Sample.host (Sample.html 503 "<html>Service Unavailable</html>")
                        Sample.token_ok)
           (Sample.html 503 "<html>Service Unavailable</html>") JNull);
    first [ left; vm_compute; reflexivity | vm_compute; reflexivity ].
Defined.

Lemma X6_sample_run :
  rejects_key Sample.env (Sample.with_key Sample.order) = false
  /\ passes_validation (body (Sample.with_key Sample.order)) = true
  /\ shopify_configured Sample.env = true
  /\ exists later,
       snd (Final.create_draft_order Sample.env
              (Sample.host Sample.token_ok (Sample.json 200 Sample.created_text))
              (Sample.with_key Sample.order))
       = tokenRequest Sample.env :: later.
Proof.
  apply (X6_no_call_without_key_and_valid_body
           Sample.env (Sample.host Sample.token_ok (Sample.json 200 Sample.created_text))
           (Sample.with_key Sample.order)).
  vm_compute. discriminate.
Defined.

Lemma X7_sample_run :
  exists tok rq resp data draft,
    rejects_key Sample.env (Sample.with_key Sample.order) = false
    /\ passes_validation (body (Sample.with_key Sample.order)) = true
    /\ fst (Final.getShopifyAccessToken Sample.env
              (Sample.host Sample.token_ok (Sample.json 200 Sample.created_text)))
       = inr tok
    /\ mutationRequest Sample.env tok (body (Sample.with_key Sample.order)) = inr rq
    /\ fetch (Sample.host Sample.token_ok (Sample.json 200 Sample.created_text)) rq
       = inr resp
    /\ resp_ok resp = true
    /\ JSON_parse (Sample.host Sample.token_ok (Sample.json 200 Sample.created_text))
                  (resp_text resp) = inr data
    /\ has_user_errors data = false
    /\ draftOrder_of data = inr draft /\ nullish draft = false
    /\ Final.create_draft_order Sample.env
         (Sample.host Sample.token_ok (Sample.json 200 Sample.created_text))
         (Sample.with_key Sample.order) =
       (mkReply 200 (JObj [("draft_order_id", get_opt draft "id");
                           ("invoice_url", get_opt draft "invoiceUrl")]),
        [tokenRequest Sample.env; rq]).
Proof.
  apply (X7_status_200_only_after_an_ok_mutation
           Sample.env (Sample.host Sample.token_ok (Sample.json 200 Sample.created_text))
           (Sample.with_key Sample.order)).
  vm_compute. reflexivity.
Defined.

Lemma X8_sample_run :
  exists rq t,
    mutationRequest Sample.env (JStr "shpat_1") (body (Sample.with_key Sample.order))
    = inr rq
    /\ snd (Final.create_draft_order Sample.env
              (Sample.host Sample.token_ok (Sample.json 200 Sample.created_text))
              (Sample.with_key Sample.order))
       = [tokenRequest Sample.env; rq]
    /\ ToString (JStr (N := int_number) "shpat_1") = inr t
    /\ fr_method rq = "POST"
    /\ fr_url rq = "https://" +:+ interpolate (SHOPIFY_SHOP_DOMAIN Sample.env)
                   +:+ "/admin/api/" +:+ SHOPIFY_API_VERSION Sample.env
                   +:+ "/graphql.json"
    /\ fr_headers rq = [("Content-Type", "application/json");
                        ("X-Shopify-Access-Token", t)]
    /\ length (forwarded_items rq)
       = length (elements (items_of (body (Sample.with_key Sample.order)))).
Proof.
  apply (X8_plain_request_reaches_the_upstream
           Sample.env (Sample.host Sample.token_ok (Sample.json 200 Sample.created_text))
           (Sample.with_key Sample.order) "s3cret" (JStr "shpat_1"));
    first [ discriminate | vm_compute; reflexivity ].
Defined.

Lemma X10_sample_run :
  Rev3.getProvidedKey
    (mkRequest (N := int_number) {[ "authorization" := "BEARER  s3cret " ]} Sample.order)
  = "s3cret".
Proof.
  apply (X10_bearer_scheme_in_any_case_and_spacing
           Sample.env (Sample.host Sample.token_ok (Sample.json 200 Sample.created_text))
           (mkRequest {[ "authorization" := "BEARER  s3cret " ]} Sample.order)
           "s3cret" "BEARER" "  " " ");
    first [ discriminate | vm_compute; reflexivity ].
Defined.

Lemma X11_sample_run :
  Rev3.requireApiKey Sample.env
    (mkRequest (N := int_number) {[ "authorization" := "s3cret" ]} Sample.order)
  = (true, None).
Proof.
  apply (X11_secret_without_scheme_is_accepted
           Sample.env (Sample.host Sample.token_ok (Sample.json 200 Sample.created_text))
           (mkRequest {[ "authorization" := "s3cret" ]} Sample.order) "s3cret");
    first [ discriminate | vm_compute; reflexivity ].
Defined.

Lemma X12_sample_run :
  Rev3.create_draft_order Sample.env
    (Sample.host Sample.token_ok (Sample.json 200 Sample.created_text))
    (mkRequest {[ "x-api-key" := "guess"; "authorization" := "Bearer s3cret" ]}
               Sample.order)
  = (Some (error_reply 401 "Unauthorized"), []).
Proof.
  apply (X12_wrong_api_key_header_hides_a_right_bearer_token _ _ _ "guess");
    first [ discriminate | vm_compute; reflexivity ].
Defined.

Lemma X13_sample_run :
  status (fst (Rev2.create_draft_order Sample.env
                 (Sample.host Sample.token_ok (Sample.json 200 Sample.refused_text))
                 (Sample.with_key Sample.order)))
  = status (fst (Final.create_draft_order Sample.env
                   (Sample.host Sample.token_ok (Sample.json 200 Sample.refused_text))
                   (Sample.with_key Sample.order)))
  /\ snd (Rev2.create_draft_order Sample.env
            (Sample.host Sample.token_ok (Sample.json 200 Sample.refused_text))
            (Sample.with_key Sample.order))
     = snd (Final.create_draft_order Sample.env
              (Sample.host Sample.token_ok (Sample.json 200 Sample.refused_text))
              (Sample.with_key Sample.order)).
Proof.
  apply X13_second_revision_agrees_with_the_last;
    [reflexivity | apply sample_graphql_host].
Defined.

Lemma X15_sample_run :
  exists r,
    fst (Rev3.create_draft_order Sample.env
           (Sample.host Sample.token_ok (Sample.json 200 Sample.created_text))
           (Sample.with_both Sample.order)) = Some r
    /\ status r
       = status (fst (Final.create_draft_order Sample.env
                        (Sample.host Sample.token_ok (Sample.json 200 Sample.created_text))
                        (Sample.with_both Sample.order)))
    /\ snd (Rev3.create_draft_order Sample.env
              (Sample.host Sample.token_ok (Sample.json 200 Sample.created_text))
              (Sample.with_both Sample.order))
       = snd (Final.create_draft_order Sample.env
                (Sample.host Sample.token_ok (Sample.json 200 Sample.created_text))
                (Sample.with_both Sample.order)).
Proof.
  apply X15_third_revision_agrees_with_the_last;
    [left; vm_compute; reflexivity | apply sample_graphql_host].
Defined.

Lemma X16_sample_run :
  Rev1.getShopifyAccessToken Sample.env
    (Sample.host (Sample.html 200 "<html>Log in</html>") Sample.token_ok)
    (fun _ => "{}")
  = (inl (mkExn "SyntaxError" "Unexpected token < in JSON at position 0"),
     [tokenRequest Sample.env]).
Proof.
  apply (X16_first_revision_parses_every_token_answer
           Sample.env
           (Sample.host (Sample.html 200 "<html>Log in</html>") Sample.token_ok)
           (fun _ => "{}") (Sample.html 200 "<html>Log in</html>"));
    vm_compute; reflexivity.
Defined.

Lemma X18_sample_run :
  rejects_key Sample.env (Sample.with_key Sample.order) = false.
Proof.
  apply (X18_application_calls_out_only_for_an_accepted_order
           (fun _ => None) exact_router Sample.env
           (Sample.host Sample.token_ok (Sample.json 200 Sample.created_text))
           (mkInbound "POST" "/create-draft-order" (Sample.with_key Sample.order))).
  vm_compute. discriminate.
Defined.

Lemma X19_sample_run :
  status (fst (Final.create_draft_order Sample.env
                 (Sample.host Sample.token_ok (Sample.json 200 Sample.created_text))
                 (Sample.with_key
                    (JObj [("customer", JObj [("email", JStr "a@b.c")]);
                           ("shipping_address", JObj [("address1", JStr "1 Main St")]);
                           ("items", JArr [JObj []; JNull])])))) = 500
  /\ snd (Final.create_draft_order Sample.env
            (Sample.host Sample.token_ok (Sample.json 200 Sample.created_text))
            (Sample.with_key
               (JObj [("customer", JObj [("email", JStr "a@b.c")]);
                      ("shipping_address", JObj [("address1", JStr "1 Main St")]);
                      ("items", JArr [JObj []; JNull])])))
     = [tokenRequest Sample.env].
Proof.
  apply (X19_null_item_costs_a_token_exchange
           Sample.env _ _ "s3cret" (JStr "shpat_1") JNull);
    first [ discriminate | right; left; reflexivity | vm_compute; reflexivity ].
Defined.
